(** * NexaVid backend: the Streamtape relay routes

    A shallow embedding of the Express route handlers of the repository
    (src/index.js and the three earlier revisions of its upload route kept
    next to it) and the properties of the upload relay path, the
    download-link guard and the video listing filter.

    The handlers are written in a small state-and-exception monad.  The state
    holds what a handler can change: the response object [res], the files on
    disk, and the ordered list of outward effects (provider calls, unlinks,
    console lines, responses).  Everything the handler cannot decide itself
    (the provider's answers or its silence, whether an unlink fails, whether
    the uploaded file stream reports an error, how far the multipart parser
    gets) is read from a [world]. *)

From Stdlib Require Import ZArith Ascii String List Bool Lia.
From stdpp Require Import base strings gmap pretty.

Local Open Scope Z_scope.

(** ** JavaScript values *)

(** Values as they come out of [JSON.parse] or the query-string parser, plus
    [undefined].  [JNum n] is the integer-valued number [n]; an object lists
    its own properties in order, duplicates already resolved by the parser. *)
#[warnings="-register-all"]
Inductive jsval : Type :=
  | JUndefined
  | JNull
  | JBool (b : bool)
  | JNum (n : Z)
  | JStr (s : string)
  | JArr (items : list jsval)
  | JObj (props : list (string * jsval)).

(** ToBoolean. *)
Definition truthy (v : jsval) : bool :=
  match v with
  | JUndefined | JNull => false
  | JBool b => b
  | JNum n => negb (n =? 0)
  | JStr s => negb (String.eqb s "")
  | JArr _ | JObj _ => true
  end.

(** [a || b] *)
Definition js_or (a b : jsval) : jsval := if truthy a then a else b.

(** [a === b] against a primitive; arrays and objects are compared by
    identity, so a parsed value is never [===] to another one. *)
Definition strict_eq (a b : jsval) : bool :=
  match a, b with
  | JUndefined, JUndefined => true
  | JNull, JNull => true
  | JBool x, JBool y => Bool.eqb x y
  | JNum x, JNum y => x =? y
  | JStr x, JStr y => String.eqb x y
  | _, _ => false
  end.

(** ToString, as used by template literals, [+] on strings and [new Error(x)].
    Numbers print as decimal numerals (what JavaScript prints for integers
    below 10^21 in absolute value). *)
Fixpoint to_string (v : jsval) : string :=
  match v with
  | JUndefined => "undefined"
  | JNull => "null"
  | JBool true => "true"
  | JBool false => "false"
  | JNum n => pretty n
  | JStr s => s
  | JArr items =>
      (fix join (l : list jsval) : string :=
         match l with
         | [] => ""
         | x :: r =>
             let sx := match x with
                       | JUndefined | JNull => ""
                       | _ => to_string x
                       end in
             match r with
             | [] => sx
             | _ => sx +:+ "," +:+ join r
             end
         end) items
  | JObj _ => "[object Object]"
  end.

Fixpoint lookup_prop (k : string) (props : list (string * jsval)) : jsval :=
  match props with
  | [] => JUndefined
  | (k', v) :: rest => if String.eqb k' k then v else lookup_prop k rest
  end.

(** [v.k] for a value that is neither [null] nor [undefined]: a missing
    property, or any of the property names used here on a primitive or an
    array, reads as [undefined]. *)
Definition field (k : string) (v : jsval) : jsval :=
  match v with
  | JObj props => lookup_prop k props
  | _ => JUndefined
  end.

Definition nullish (v : jsval) : bool :=
  match v with
  | JUndefined | JNull => true
  | _ => false
  end.

(** [v?.k] *)
Definition opt_field (k : string) (v : jsval) : jsval :=
  if nullish v then JUndefined else field k v.

(** ** Errors *)

(** What the catch blocks look at: [axios.isCancel(error)], [error.code],
    [error.response] (HTTP status and parsed body) and [error.message]. *)
Record js_error : Type := mk_error {
  err_cancel : bool;
  err_code : option string;
  err_response : option (Z * jsval);
  err_message : string
}.

(** [error.code === code] *)
Definition code_is (code : string) (error : js_error) : bool :=
  match err_code error with
  | Some c => String.eqb c code
  | None => false
  end.

(** [new Error(x)], [x] not [undefined] *)
Definition new_Error (x : jsval) : js_error :=
  mk_error false None None (to_string x).

(** Reading a property of [null] or [undefined] (V8 wording). *)
Definition type_error_read (k : string) (v : jsval) : js_error :=
  mk_error false None None
    ("Cannot read properties of " +:+ to_string v +:+ " (reading '" +:+ k +:+ "')").

Definition type_error_not_function (what : string) : js_error :=
  mk_error false None None (what +:+ " is not a function").

Definition ERR_HTTP_HEADERS_SENT : js_error :=
  mk_error false (Some "ERR_HTTP_HEADERS_SENT") None
    "Cannot set headers after they are sent to the client".

Definition ERR_HTTP_INVALID_STATUS_CODE (code : Z) : js_error :=
  mk_error false (Some "ERR_HTTP_INVALID_STATUS_CODE") None
    ("Invalid status code: " +:+ pretty code).

(** ** Effects *)

Record response : Type := mk_response { status : Z; body : jsval }.

(** The multipart body handed to the provider: [form.append("file1", source,
    { filename, contentType })]. *)
Record form_data : Type := mk_form {
  form_filename : string;
  form_contentType : string;
  form_source : list Byte.byte
}.

Inductive level : Type := LLog | LWarn | LError.

Inductive event : Type :=
  | Get (url : string) (params : list (string * option string)) (timeout : option Z)
  | Post (url : jsval) (form : form_data) (timeout : option Z)
  | Unlink (path : string)
  | Console (lvl : level) (text : string)
  | Send (r : response).

(** [res] is [None] until a response has been sent ([res.headersSent]);
    [trace] lists the effects in the order they happened. *)
Record state : Type := mk_state {
  res : option response;
  disk : gset string;
  trace : list event
}.

Definition headersSent (s : state) : bool :=
  match res s with
  | Some _ => true
  | None => false
  end.

Definition emit (e : event) (s : state) : state :=
  mk_state (res s) (disk s) (trace s ++ [e]).

(** How far a handler gets: it returns, it throws, or it stays suspended at
    an [await] whose promise never settles. *)
Inductive outcome (A : Type) : Type :=
  | Ret (a : A)
  | Throw (e : js_error)
  | Suspended.
Arguments Ret {A} a.
Arguments Throw {A} e.
Arguments Suspended {A}.

Definition M (A : Type) : Type := state -> outcome A * state.

Definition ret {A} (a : A) : M A := fun s => (Ret a, s).

Definition bind {A B} (m : M A) (k : A -> M B) : M B :=
  fun s =>
    match m s with
    | (Ret a, s') => k a s'
    | (Throw e, s') => (Throw e, s')
    | (Suspended, s') => (Suspended, s')
    end.

Definition throw {A} (e : js_error) : M A := fun s => (Throw e, s).

Declare Scope js_scope.
Delimit Scope js_scope with js.
Notation "x <- m ;; k" := (bind m (fun x => k))
  (at level 100, m at next level, right associativity) : js_scope.
Notation "m ;;; k" := (bind m (fun _ => k))
  (at level 100, right associativity) : js_scope.
Local Open Scope js_scope.

(** [try { body } catch (error) { handler }] *)
Definition try_catch {A} (body : M A) (handler : js_error -> M A) : M A :=
  fun s =>
    match body s with
    | (Ret a, s') => (Ret a, s')
    | (Throw e, s') => handler e s'
    | (Suspended, s') => (Suspended, s')
    end.

(** [try { body } finally { fin }]: [fin] runs once [body] has returned or
    thrown; the outcome is that of [body] unless [fin] itself throws.  A
    [body] that stays suspended never reaches [fin]. *)
Definition try_finally {A} (body : M A) (fin : M unit) : M A :=
  fun s =>
    match body s with
    | (Suspended, s') => (Suspended, s')
    | (o, s') =>
        match fin s' with
        | (Ret _, s'') => (o, s'')
        | (Throw e, s'') => (Throw e, s'')
        | (Suspended, s'') => (Suspended, s'')
        end
    end.

(** [v.k], throwing on [null] and [undefined] *)
Definition get (k : string) (v : jsval) : M jsval :=
  if nullish v then throw (type_error_read k v) else ret (field k v).

Definition console (lvl : level) (text : string) : M unit :=
  fun s => (Ret tt, emit (Console lvl text) s).

(** [res.status(code).json(body)]: Node refuses a second response and a
    status code outside 100..999. *)
Definition res_status_json (code : Z) (b : jsval) : M unit :=
  fun s =>
    if headersSent s then (Throw ERR_HTTP_HEADERS_SENT, s)
    else if (code <? 100) || (999 <? code) then
      (Throw (ERR_HTTP_INVALID_STATUS_CODE code), s)
    else
      let r := mk_response code b in
      (Ret tt, mk_state (Some r) (disk s) (trace s ++ [Send r])).

(** [res.json(body)]: the status code keeps its default, 200. *)
Definition res_json (b : jsval) : M unit := res_status_json 200 b.

(** ToInt32 of an integer-valued number. *)
Definition to_int32 (n : Z) : Z := (n + 2 ^ 31) mod 2 ^ 32 - 2 ^ 31.

Fixpoint digits_value (acc : Z) (s : string) : option Z :=
  match s with
  | EmptyString => Some acc
  | String c rest =>
      let d := Z.of_nat (Ascii.nat_of_ascii c) - 48 in
      if (0 <=? d) && (d <=? 9) then digits_value (10 * acc + d) rest else None
  end.

(** ** The world outside the handler *)

(** What becomes of a call to the provider: the promise resolves with the
    response body, it is rejected (network error, aborted connection, HTTP
    error status), or the provider never answers. *)
Inductive axios_result : Type :=
  | Resolved (data : jsval)
  | Rejected (e : js_error)
  | Silent.

(** When the stored file stream of a busboy handler can emit ['error']: while
    the body comes in and the handler waits for ['finish'], while the finish
    listener awaits the negotiation, and while it awaits the transfer. *)
Inductive await_point : Type := BeforeFinish | AtNegotiation | AtRelay.

(** The environment variables, the provider's answer to each call, whether
    the operating system refuses an unlink, and whether the uploaded file
    stream emits ['error'] at a given point.  Three facts of the platform are
    left open as well: how many further parts the multipart parser reports
    once an unread file stream is in its way ([backlog]), whether it counts a
    part of exactly the limit's size as cut (busboy 1 does, earlier versions
    do not), and the number JavaScript reads from a string that is not a
    plain decimal numeral ([int32_of_text], already through ToInt32). *)
Record world : Type := mk_world {
  STREAMTAPE_LOGIN : option string;
  STREAMTAPE_KEY : option string;
  STREAMTAPE_FOLDER_ID : option string;
  provider_get : string -> axios_result;
  provider_post : jsval -> axios_result;
  unlink_refused : string -> option js_error;
  stream_error_at : await_point -> bool;
  backlog : nat;
  truncates_at_limit : bool;
  int32_of_text : string -> Z
}.

(** An unset variable interpolates as the text [undefined]. *)
Definition env_str (v : option string) : string :=
  match v with
  | Some s => s
  | None => "undefined"
  end.

(** What axios raises when [timeout] milliseconds have passed. *)
Definition timeout_error (timeout : Z) : js_error :=
  mk_error false (Some "ECONNABORTED") None
    ("timeout of " +:+ pretty timeout +:+ "ms exceeded").

(** [await] on an axios promise.  When the provider stays silent, a call made
    with a timeout is rejected by axios itself; one made without never
    settles. *)
Definition settle (timeout : option Z) (r : axios_result) : outcome jsval :=
  match r with
  | Resolved data => Ret data
  | Rejected e => Throw e
  | Silent =>
      match timeout with
      | Some t => Throw (timeout_error t)
      | None => Suspended
      end
  end.

(** [await axios.get(url, { params, timeout })], yielding [response.data] *)
Definition axios_get (w : world) (url : string)
    (params : list (string * option string)) (timeout : option Z) : M jsval :=
  fun s => (settle timeout (provider_get w url), emit (Get url params timeout) s).

(** [await axios.post(url, form, { ..., timeout })], yielding [response.data] *)
Definition axios_post (w : world) (url : jsval) (form : form_data)
    (timeout : option Z) : M jsval :=
  fun s => (settle timeout (provider_post w url), emit (Post url form timeout) s).

(** ToInt32 of the number a string reads as: a plain decimal numeral that a
    double holds exactly is computed, anything else is the world's. *)
Definition int32_of_string (w : world) (s : string) : Z :=
  match digits_value 0 s with
  | Some n => if n <=? 2 ^ 53 then to_int32 n else int32_of_text w s
  | None => int32_of_text w s
  end.

(** The status code Node writes for [res.status(v)]: [v |= 0].  An array is
    read through its string. *)
Definition status_code_of (w : world) (v : jsval) : Z :=
  match v with
  | JNum n => to_int32 n
  | JBool true => 1
  | JStr s => int32_of_string w s
  | JArr _ => int32_of_string w (to_string v)
  | _ => 0
  end.

Definition ENOENT (path : string) : js_error :=
  mk_error false (Some "ENOENT") None
    ("ENOENT: no such file or directory, unlink '" +:+ path +:+ "'").

(** [fsPromises.unlink(path)] *)
Definition unlink (w : world) (path : string) : M unit :=
  fun s =>
    let s' := emit (Unlink path) s in
    match unlink_refused w path with
    | Some e => (Throw e, s')
    | None =>
        if bool_decide (path ∈ disk s) then
          (Ret tt, mk_state (res s') (disk s' ∖ {[path]}) (trace s'))
        else (Throw (ENOENT path), s')
    end.

Definition API_BASE_URL : string := "https://api.streamtape.com".

Definition failure (message : string) : jsval :=
  JObj [("success", JBool false); ("message", JStr message)].

(** ** Routes shared by every revision *)

Module Routes.

(** [(file) => file.linkid && file.convert === "converted"] *)
Definition keep_file (file : jsval) : M bool :=
  linkid <- get "linkid" file ;;
  if truthy linkid then
    convert <- get "convert" file ;;
    ret (strict_eq convert (JStr "converted"))
  else ret false.

Fixpoint filter_items (pred : jsval -> M bool) (items : list jsval) : M (list jsval) :=
  match items with
  | [] => ret []
  | x :: rest =>
      keep <- pred x ;;
      kept <- filter_items pred rest ;;
      ret (if keep then x :: kept else kept)
  end.

(** [v.filter(pred)]: only arrays have the method. *)
Definition array_filter (what : string) (pred : jsval -> M bool) (v : jsval) : M jsval :=
  match v with
  | JArr items => kept <- filter_items pred items ;; ret (JArr kept)
  | _ => throw (type_error_not_function (what +:+ ".filter"))
  end.

(** [data.status === 200 && data.result && data.result.files] as a condition *)
Definition listing_ok (data : jsval) : M bool :=
  st <- get "status" data ;;
  if strict_eq st (JNum 200) then
    result <- get "result" data ;;
    if truthy result then
      files <- get "files" result ;;
      ret (truthy files)
    else ret false
  else ret false.

(** [app.get("/api/videos", ...)] *)
Definition get_videos (w : world) : M unit :=
  try_catch
    (let streamtapeUrl :=
       API_BASE_URL +:+ "/file/listfolder?login=" +:+ env_str (STREAMTAPE_LOGIN w)
         +:+ "&key=" +:+ env_str (STREAMTAPE_KEY w)
         +:+ "&folder=" +:+ env_str (STREAMTAPE_FOLDER_ID w) in
     data <- axios_get w streamtapeUrl [] None ;;
     ok <- listing_ok data ;;
     if ok then
       result <- get "result" data ;;
       files <- get "files" result ;;
       videos <- array_filter "response.data.result.files" keep_file files ;;
       res_json (JObj [("success", JBool true); ("videos", videos)])
     else
       msg <- get "msg" data ;;
       console LError "Streamtape API error (listfolder):" ;;;
       st <- get "status" data ;;
       res_status_json (status_code_of w (js_or st (JNum 500)))
         (JObj [("success", JBool false);
                ("message", js_or msg (JStr "Failed to fetch videos."))]))
    (fun error =>
       console LError "Error fetching videos:" ;;;
       res_status_json 500 (failure "Server error while fetching videos.")).

(** [data.status === 200 && data.result && data.result.url] as a condition *)
Definition link_ok (data : jsval) : M bool :=
  st <- get "status" data ;;
  if strict_eq st (JNum 200) then
    result <- get "result" data ;;
    if truthy result then
      url <- get "url" result ;;
      ret (truthy url)
    else ret false
  else ret false.

(** [app.get("/api/videos/:linkId/download-link", ...)]; [query] is
    [req.query]. *)
Definition download_link (w : world) (linkId : string)
    (query : gmap string jsval) : M unit :=
  let ticket := default JUndefined (query !! "ticket") in
  if negb (truthy ticket) then
    res_status_json 400 (failure "Download ticket is required.")
  else
    try_catch
      (let streamtapeUrl :=
         API_BASE_URL +:+ "/file/dl?file=" +:+ linkId
           +:+ "&ticket=" +:+ to_string ticket in
       data <- axios_get w streamtapeUrl [] None ;;
       ok <- link_ok data ;;
       if ok then
         result <- get "result" data ;;
         url <- get "url" result ;;
         name <- get "name" result ;;
         res_json (JObj [("success", JBool true);
                         ("downloadUrl", url);
                         ("filename", name)])
       else
         msg <- get "msg" data ;;
         console LError ("Streamtape API error (dl for " +:+ linkId +:+ "):") ;;;
         st <- get "status" data ;;
         res_status_json (status_code_of w (js_or st (JNum 500)))
           (JObj [("success", JBool false);
                  ("message", js_or msg (JStr "Failed to get download link."))]))
      (fun error =>
         console LError ("Error fetching download link for " +:+ linkId +:+ ":") ;;;
         res_status_json 500 (failure "Server error while fetching download link.")).

End Routes.

(** A fresh request: nothing sent, nothing done yet. *)
Definition fresh (files : gset string) : state := mk_state None files [].

(** ** The multipart request body *)

(** One part of the multipart body of POST /api/upload, as the multipart
    parser reports it: a file part (field name, the filename of its
    content-disposition if any, its content type, its bytes) or a plain
    form field. *)
Inductive part : Type :=
  | FilePart (fieldname : string) (filename : option string)
             (mimeType : string) (content : list Byte.byte)
  | FieldPart (fieldname : string) (val : string).

(** A file part under the field name the upload routes look for. *)
Definition is_video_file (p : part) : bool :=
  match p with
  | FilePart fieldname _ _ _ => String.eqb fieldname "videoFile"
  | FieldPart _ _ => false
  end.

(** The parts a busboy handler gets to see.  It stores the first [videoFile]
    stream without reading it; from then on the parser gets only as far as
    the buffer of that stream lets it, [backlog] more parts at most. *)
Fixpoint delivered (backlog : nat) (parts : list part) : list part :=
  match parts with
  | [] => []
  | p :: rest =>
      p :: (if is_video_file p then firstn backlog rest else delivered backlog rest)
  end.

Definition opt_str (o : option string) : jsval :=
  match o with
  | Some s => JStr s
  | None => JUndefined
  end.

Definition headers_sent : M bool := fun s => (Ret (headersSent s), s).

(** [await call], with [during] standing for the other callbacks of the same
    request that run while the handler is suspended. *)
Definition await {A} (during : M unit) (call : M A) : M A :=
  fun s =>
    match call s with
    | (o, s') => (o, snd (during s'))
    end.

(** ** src/index.js: POST /api/upload, streamed through busboy

    busboy reports one ['file'] or ['field'] event per part it parses.  It
    emits ['finish'] only after every file stream it handed out has been read
    to its end (its documentation of the ['file'] event says so, and tells
    handlers to [resume()] the streams they do not want).  The progress
    callback of the transfer only writes console lines and is left out. *)

Module IndexJs.

(** The variables the three callbacks share. *)
Record upload_vars : Type := mk_vars {
  fileStream : option (list Byte.byte);
  fileName : string
}.

(** [file.on("error", ...)] *)
Definition on_file_error : M unit :=
  console LError "Error on file stream:" ;;;
  sent <- headers_sent ;;
  if negb sent then
    res_status_json 500 (failure "File stream error during upload.")
  else ret tt.

(** [busboy.on("file", ...)]; busboy calls it with the field name, the
    stream and the info object, so [mimetype] arrives [undefined]. *)
Definition on_file (fieldname : string) (file : list Byte.byte)
    (filename_filename : option string) (mimetype : jsval)
    (v : upload_vars) : M upload_vars :=
  if negb (String.eqb fieldname "videoFile") then
    (* file.resume() *)
    ret v
  else
    console LLog ("Receiving file: " +:+ to_string (opt_str filename_filename)
                    +:+ " (" +:+ to_string mimetype +:+ ")") ;;;
    ret (mk_vars (Some file)
           (to_string (js_or (opt_str filename_filename) (JStr "uploaded_video")))).

(** [busboy.on("field", ...)]: the body is empty. *)
Definition on_field (fieldname val : string) (v : upload_vars) : M upload_vars :=
  ret v.

(** The error listener exists once a [videoFile] stream has been stored. *)
Definition stream_error (w : world) (pt : await_point) (v : upload_vars) : M unit :=
  match fileStream v with
  | Some _ => if stream_error_at w pt then on_file_error else ret tt
  | None => ret tt
  end.

(** [form.append("file1", fileStream, ...)]: form-data dereferences the
    source, so an [undefined] one throws. *)
Definition form_append (v : upload_vars) : M form_data :=
  match fileStream v with
  | Some file => ret (mk_form (fileName v) "application/octet-stream" file)
  | None => throw (type_error_read "emit" JUndefined)
  end.

Definition upload_try (w : world) (v : upload_vars) : M unit :=
  initResponse <- await (stream_error w AtNegotiation v)
    (axios_get w (API_BASE_URL +:+ "/file/ul")
       [("login", STREAMTAPE_LOGIN w); ("key", STREAMTAPE_KEY w);
        ("folder", STREAMTAPE_FOLDER_ID w)]
       (Some 60000)) ;;
  st <- get "status" initResponse ;;
  result <- get "result" initResponse ;;
  if negb (strict_eq st (JNum 200)) || negb (truthy (opt_field "url" result)) then
    msg <- get "msg" initResponse ;;
    throw (new_Error (js_or msg (JStr "Failed to get upload URL from Streamtape.")))
  else
    uploadUrl <- get "url" result ;;
    console LLog ("Streamtape upload URL obtained: " +:+ to_string uploadUrl) ;;;
    form <- form_append v ;;
    uploadResponse <- await (stream_error w AtRelay v)
      (axios_post w uploadUrl form (Some 300000)) ;;
    st <- get "status" uploadResponse ;;
    result <- get "result" uploadResponse ;;
    if negb (strict_eq st (JNum 200)) || negb (truthy (opt_field "id" result)) then
      msg <- get "msg" uploadResponse ;;
      throw (new_Error
               (js_or msg (JStr "Upload failed or no file ID returned from Streamtape.")))
    else
      id <- get "id" result ;;
      console LLog ("File " +:+ fileName v +:+ " uploaded to Streamtape with ID: "
                      +:+ to_string id) ;;;
      name <- get "name" result ;;
      url <- get "url" result ;;
      size <- get "size" result ;;
      content_type <- get "content_type" result ;;
      sha256 <- get "sha256" result ;;
      res_status_json 200
        (JObj [("success", JBool true);
               ("message", JStr "Video uploaded successfully!");
               ("data", JObj [("fileId", id);
                              ("fileName", name);
                              ("streamUrl", JStr ("https://streamtape.com/e/" +:+ to_string id));
                              ("downloadUrl", url);
                              ("size", size);
                              ("contentType", content_type);
                              ("sha256", sha256)])]).

(** [error.response?.data?.msg || error.message] *)
Definition error_text (error : js_error) : string :=
  to_string
    (js_or (match err_response error with
            | Some (_, data) => opt_field "msg" data
            | None => JUndefined
            end)
           (JStr (err_message error))).

Definition upload_catch (error : js_error) : M unit :=
  console LError "Error during Streamtape upload process:" ;;;
  sent <- headers_sent ;;
  if negb sent then
    if err_cancel error then
      res_status_json 504 (failure "Upload cancelled by timeout.")
    else if code_is "ECONNABORTED" error then
      res_status_json 504 (failure "Upload timed out after a long wait.")
    else
      res_status_json 500 (failure ("Failed to upload video: " +:+ error_text error))
  else ret tt.

(** [busboy.on("finish", async () => ...)] *)
Definition on_finish (w : world) (v : upload_vars) : M unit :=
  answered <-
    match fileStream v with
    | None =>
        console LWarn "No file stream found in upload request." ;;;
        sent <- headers_sent ;;
        if negb sent then
          res_status_json 400 (failure "No file uploaded.") ;;; ret true
        else ret false
    | Some _ => ret false
    end ;;
  if (answered : bool) then ret tt
  else try_catch (upload_try w v) upload_catch.

Fixpoint on_parts (parts : list part) (v : upload_vars) : M upload_vars :=
  match parts with
  | [] => ret v
  | FilePart fieldname filename _ content :: rest =>
      v' <- on_file fieldname content filename JUndefined v ;;
      on_parts rest v'
  | FieldPart fieldname val :: rest =>
      v' <- on_field fieldname val v ;;
      on_parts rest v'
  end.

(** [app.post("/api/upload", (req, res) => ...)] followed by the events of
    [req.pipe(busboy)].  The streams of other fields are resumed, so without
    a [videoFile] part ['finish'] arrives.  A [videoFile] stream is stored and
    read by nobody before the finish listener hands it to the form: with such
    a part ['finish'] is withheld, the listener never runs, and all that can
    still happen is the stream's ['error'] event. *)
Definition upload (w : world) (parts : list part) : M unit :=
  v <- on_parts (delivered (backlog w) parts) (mk_vars None "unknown_file") ;;
  match fileStream v with
  | Some _ => stream_error w BeforeFinish v
  | None => on_finish w v
  end.

End IndexJs.

(** ** The earlier busboy revision of POST /api/upload

    Same callbacks as [IndexJs], and the same wait for ['finish'], but no
    timeout is passed to either provider call and the catch block has a
    single answer. *)

Module BusboyEarlier.

Record upload_vars : Type := mk_vars {
  fileStream : option (list Byte.byte);
  fileName : string
}.

Definition on_file_error : M unit :=
  console LError "Error on file stream:" ;;;
  sent <- headers_sent ;;
  if negb sent then
    res_status_json 500 (failure "File stream error during upload.")
  else ret tt.

Definition on_file (fieldname : string) (file : list Byte.byte)
    (filename_filename : option string) (mimetype : jsval)
    (v : upload_vars) : M upload_vars :=
  if negb (String.eqb fieldname "videoFile") then
    (* file.resume() *)
    ret v
  else
    console LLog ("Receiving file: " +:+ to_string (opt_str filename_filename)
                    +:+ " (" +:+ to_string mimetype +:+ ")") ;;;
    ret (mk_vars (Some file)
           (to_string (js_or (opt_str filename_filename) (JStr "uploaded_video")))).

Definition on_field (fieldname val : string) (v : upload_vars) : M upload_vars :=
  ret v.

Definition stream_error (w : world) (pt : await_point) (v : upload_vars) : M unit :=
  match fileStream v with
  | Some _ => if stream_error_at w pt then on_file_error else ret tt
  | None => ret tt
  end.

Definition form_append (v : upload_vars) : M form_data :=
  match fileStream v with
  | Some file => ret (mk_form (fileName v) "application/octet-stream" file)
  | None => throw (type_error_read "emit" JUndefined)
  end.

Definition upload_try (w : world) (v : upload_vars) : M unit :=
  initResponse <- await (stream_error w AtNegotiation v)
    (axios_get w (API_BASE_URL +:+ "/file/ul")
       [("login", STREAMTAPE_LOGIN w); ("key", STREAMTAPE_KEY w);
        ("folder", STREAMTAPE_FOLDER_ID w)]
       None) ;;
  st <- get "status" initResponse ;;
  result <- get "result" initResponse ;;
  if negb (strict_eq st (JNum 200)) || negb (truthy (opt_field "url" result)) then
    msg <- get "msg" initResponse ;;
    throw (new_Error (js_or msg (JStr "Failed to get upload URL from Streamtape.")))
  else
    uploadUrl <- get "url" result ;;
    console LLog ("Streamtape upload URL obtained: " +:+ to_string uploadUrl) ;;;
    form <- form_append v ;;
    uploadResponse <- await (stream_error w AtRelay v)
      (axios_post w uploadUrl form None) ;;
    st <- get "status" uploadResponse ;;
    result <- get "result" uploadResponse ;;
    if negb (strict_eq st (JNum 200)) || negb (truthy (opt_field "id" result)) then
      msg <- get "msg" uploadResponse ;;
      throw (new_Error
               (js_or msg (JStr "Upload failed or no file ID returned from Streamtape.")))
    else
      id <- get "id" result ;;
      console LLog ("File " +:+ fileName v +:+ " uploaded to Streamtape with ID: "
                      +:+ to_string id) ;;;
      name <- get "name" result ;;
      url <- get "url" result ;;
      size <- get "size" result ;;
      content_type <- get "content_type" result ;;
      sha256 <- get "sha256" result ;;
      res_status_json 200
        (JObj [("success", JBool true);
               ("message", JStr "Video uploaded successfully!");
               ("data", JObj [("fileId", id);
                              ("fileName", name);
                              ("streamUrl", JStr ("https://streamtape.com/e/" +:+ to_string id));
                              ("downloadUrl", url);
                              ("size", size);
                              ("contentType", content_type);
                              ("sha256", sha256)])]).

Definition error_text (error : js_error) : string :=
  to_string
    (js_or (match err_response error with
            | Some (_, data) => opt_field "msg" data
            | None => JUndefined
            end)
           (JStr (err_message error))).

Definition upload_catch (error : js_error) : M unit :=
  console LError "Error during Streamtape upload process:" ;;;
  sent <- headers_sent ;;
  if negb sent then
    res_status_json 500 (failure ("Failed to upload video: " +:+ error_text error))
  else ret tt.

Definition on_finish (w : world) (v : upload_vars) : M unit :=
  answered <-
    match fileStream v with
    | None =>
        console LWarn "No file stream found in upload request." ;;;
        sent <- headers_sent ;;
        if negb sent then
          res_status_json 400 (failure "No file uploaded.") ;;; ret true
        else ret false
    | Some _ => ret false
    end ;;
  if (answered : bool) then ret tt
  else try_catch (upload_try w v) upload_catch.

Fixpoint on_parts (parts : list part) (v : upload_vars) : M upload_vars :=
  match parts with
  | [] => ret v
  | FilePart fieldname filename _ content :: rest =>
      v' <- on_file fieldname content filename JUndefined v ;;
      on_parts rest v'
  | FieldPart fieldname val :: rest =>
      v' <- on_field fieldname val v ;;
      on_parts rest v'
  end.

Definition upload (w : world) (parts : list part) : M unit :=
  v <- on_parts (delivered (backlog w) parts) (mk_vars None "unknown_file") ;;
  match fileStream v with
  | Some _ => stream_error w BeforeFinish v
  | None => on_finish w v
  end.

End BusboyEarlier.

(** ** multer

    [req.file] as [upload.single] leaves it: the file's form field, its client
    name and content type, where disk storage put it ([path]; empty for
    memory storage) and its bytes ([buffer] under memory storage). *)
Record multer_file : Type := mk_file {
  file_fieldname : string;
  originalname : string;
  mimetype : string;
  path : string;
  buffer : list Byte.byte
}.

(** ** The disk-buffered revision of POST /api/upload *)

Module DiskBuffered.

Fixpoint last_segment (acc : string) (s : string) : string :=
  match s with
  | EmptyString => acc
  | String "."%char rest => last_segment "" rest
  | String c rest => last_segment (acc +:+ String c "") rest
  end.

(** [destination]: [cb(null, "/tmp/")] *)
Definition destination : string := "/tmp/".

(** [filename]: the field name, [Date.now()], the rounded random number and
    [file.originalname.split(".").pop()]. *)
Definition filename (fieldname originalname : string) (now rnd : Z) : string :=
  let uniqueSuffix := pretty now +:+ "-" +:+ pretty rnd in
  fieldname +:+ "-" +:+ uniqueSuffix +:+ "." +:+ last_segment "" originalname.

(** [error.response.data?.msg || error.message] *)
Definition response_text (data : jsval) (error : js_error) : string :=
  to_string (js_or (opt_field "msg" data) (JStr (err_message error))).

Definition upload_try (w : world) (file : multer_file) : M unit :=
  let tempFilePath := path file in
  let originalFileName := originalname file in
  initResponse <- axios_get w (API_BASE_URL +:+ "/file/ul")
       [("login", STREAMTAPE_LOGIN w); ("key", STREAMTAPE_KEY w);
        ("folder", STREAMTAPE_FOLDER_ID w)]
       (Some 60000) ;;
  st <- get "status" initResponse ;;
  result <- get "result" initResponse ;;
  if negb (strict_eq st (JNum 200)) || negb (truthy (opt_field "url" result)) then
    msg <- get "msg" initResponse ;;
    throw (new_Error (js_or msg (JStr "Failed to get upload URL from Streamtape.")))
  else
    uploadUrl <- get "url" result ;;
    console LLog ("Streamtape upload URL obtained for " +:+ originalFileName
                    +:+ ": " +:+ to_string uploadUrl) ;;;
    (* fileReadStream = fs.createReadStream(tempFilePath) *)
    let form := mk_form originalFileName
                  (to_string (js_or (JStr (mimetype file))
                                    (JStr "application/octet-stream")))
                  (buffer file) in
    uploadResponse <- axios_post w uploadUrl form (Some 600000) ;;
    st <- get "status" uploadResponse ;;
    result <- get "result" uploadResponse ;;
    if negb (strict_eq st (JNum 200)) || negb (truthy (opt_field "id" result)) then
      msg <- get "msg" uploadResponse ;;
      throw (new_Error
               (js_or msg (JStr "Upload failed or no file ID returned from Streamtape.")))
    else
      id <- get "id" result ;;
      console LLog ("File " +:+ originalFileName +:+ " uploaded to Streamtape with ID: "
                      +:+ to_string id) ;;;
      name <- get "name" result ;;
      url <- get "url" result ;;
      size <- get "size" result ;;
      content_type <- get "content_type" result ;;
      sha256 <- get "sha256" result ;;
      res_status_json 200
        (JObj [("success", JBool true);
               ("message", JStr "Video uploaded successfully!");
               ("data", JObj [("fileId", id);
                              ("fileName", name);
                              ("streamUrl", JStr ("https://streamtape.com/e/" +:+ to_string id));
                              ("downloadUrl", url);
                              ("size", size);
                              ("contentType", content_type);
                              ("sha256", sha256)])]).

Definition upload_catch (error : js_error) : M unit :=
  console LError "Error during Streamtape upload process for local file:" ;;;
  if err_cancel error || code_is "ECONNABORTED" error then
    res_status_json 504 (failure "Upload to Streamtape timed out.")
  else
    match err_response error with
    | Some (response_status, data) =>
        if negb (response_status =? 0) then
          res_status_json response_status
            (failure ("Streamtape API error: " +:+ pretty response_status +:+ " - "
                        +:+ response_text data error))
        else
          res_status_json 500
            (failure ("Server error during upload: " +:+ err_message error))
    | None =>
        res_status_json 500
          (failure ("Server error during upload: " +:+ err_message error))
    end.

(** The [finally] block. *)
Definition upload_finally (w : world) (tempFilePath : string) : M unit :=
  if truthy (JStr tempFilePath) then
    try_catch
      (unlink w tempFilePath ;;;
       console LLog ("Temporary file deleted: " +:+ tempFilePath))
      (fun unlinkError =>
         console LError ("Error deleting temporary file " +:+ tempFilePath +:+ ":"))
  else ret tt.

(** [app.post("/api/upload", upload.single("videoFile"), async (req, res) => ...)],
    from the point where multer has set [req.file]. *)
Definition upload (w : world) (req_file : option multer_file) : M unit :=
  match req_file with
  | None => res_status_json 400 (failure "No video file provided.")
  | Some file =>
      let tempFilePath := path file in
      try_finally
        (try_catch (upload_try w file) upload_catch)
        (upload_finally w tempFilePath)
  end.

End DiskBuffered.

(** ** The in-memory revision of POST /api/upload *)

Module InMemory.

Definition upload_try (w : world) (file : multer_file) : M unit :=
  let buffer := buffer file in
  let filename := originalname file in
  initResponse <- axios_get w (API_BASE_URL +:+ "/file/ul")
       [("login", STREAMTAPE_LOGIN w); ("key", STREAMTAPE_KEY w);
        ("folder", STREAMTAPE_FOLDER_ID w)]
       None ;;
  st <- get "status" initResponse ;;
  result <- get "result" initResponse ;;
  if negb (strict_eq st (JNum 200)) || negb (truthy (opt_field "url" result)) then
    msg <- get "msg" initResponse ;;
    throw (new_Error (js_or msg (JStr "Failed to get upload URL from Streamtape.")))
  else
    uploadUrl <- get "url" result ;;
    let form := mk_form filename
                  (to_string (js_or (JStr (mimetype file))
                                    (JStr "application/octet-stream")))
                  buffer in
    uploadResponse <- axios_post w uploadUrl form None ;;
    st <- get "status" uploadResponse ;;
    result <- get "result" uploadResponse ;;
    if negb (strict_eq st (JNum 200)) || negb (truthy (opt_field "id" result)) then
      msg <- get "msg" uploadResponse ;;
      throw (new_Error
               (js_or msg (JStr "Upload failed or no file ID returned from Streamtape.")))
    else
      id <- get "id" result ;;
      name <- get "name" result ;;
      url <- get "url" result ;;
      size <- get "size" result ;;
      content_type <- get "content_type" result ;;
      sha256 <- get "sha256" result ;;
      res_status_json 200
        (JObj [("success", JBool true);
               ("message", JStr "Video uploaded successfully!");
               ("data", JObj [("fileId", id);
                              ("fileName", name);
                              ("streamUrl", JStr ("https://streamtape.com/e/" +:+ to_string id));
                              ("downloadUrl", url);
                              ("size", size);
                              ("contentType", content_type);
                              ("sha256", sha256)])]).

(** [error.response?.data?.msg || error.message] *)
Definition error_text (error : js_error) : string :=
  to_string
    (js_or (match err_response error with
            | Some (_, data) => opt_field "msg" data
            | None => JUndefined
            end)
           (JStr (err_message error))).

Definition upload_catch (error : js_error) : M unit :=
  console LError "Error in /api/upload route:" ;;;
  res_status_json 500 (failure ("Failed to upload video: " +:+ error_text error)).

(** [app.post("/api/upload", upload.single("videoFile"), async (req, res) => ...)],
    from the point where multer has set [req.file]. *)
Definition upload (w : world) (req_file : option multer_file) : M unit :=
  match req_file with
  | None => res_status_json 400 (failure "No file uploaded.")
  | Some file => try_catch (upload_try w file) upload_catch
  end.

End InMemory.

(** ** [upload.single("videoFile")]

    multer is a library; this is its documented contract for [single] under
    the options the routes pass.  Text fields go to [req.body] (which no
    handler reads), unless the value is cut at the parser's [fieldSize] limit;
    a file part without a filename is skipped; the first file under the
    expected field becomes [req.file], unless it is cut at [fileSize]; any
    other file part is unexpected.  The first such error aborts the request:
    multer removes what it stored, hands the error to Express, and the route
    handler does not run.  The limits on the number of parts, files and
    fields are infinite by default and the routes set none. *)

Module Multer.

Inductive error : Type :=
  | LIMIT_UNEXPECTED_FILE (field : string)
  | LIMIT_FIELD_VALUE (field : string)
  | LIMIT_FILE_SIZE (field : string).

(** The two limits that can bite, in bytes. *)
Record limits : Type := mk_limits { fieldSize : Z; fileSize : Z }.

(** The parser's default for [fieldSize], 1 MB. *)
Definition default_fieldSize : Z := 1024 * 1024.

(** A part of [size] bytes is cut by [limit]: always when it is longer, and
    at exactly the limit in the parser versions that count so. *)
Definition truncated (at_limit : bool) (limit size : Z) : bool :=
  (limit <? size) || (at_limit && (size =? limit)).

(** A storage engine: from the field name, client filename, content type
    and bytes of a file part to the [req.file] record. *)
Definition storage : Type :=
  string -> string -> string -> list Byte.byte -> multer_file.

Fixpoint single (name : string) (store : storage) (lim : limits) (at_limit : bool)
    (req_file : option multer_file) (parts : list part)
    : error + option multer_file :=
  match parts with
  | [] => inr req_file
  | FieldPart fieldname val :: rest =>
      if truncated at_limit (fieldSize lim) (Z.of_nat (String.length val)) then
        inl (LIMIT_FIELD_VALUE fieldname)
      else single name store lim at_limit req_file rest
  | FilePart fieldname filename mimeType content :: rest =>
      match filename with
      | Some originalname =>
          if truthy (JStr originalname) then
            match req_file with
            | None =>
                if String.eqb fieldname name then
                  if truncated at_limit (fileSize lim) (Z.of_nat (length content)) then
                    inl (LIMIT_FILE_SIZE fieldname)
                  else
                    single name store lim at_limit
                      (Some (store fieldname originalname mimeType content)) rest
                else inl (LIMIT_UNEXPECTED_FILE fieldname)
            | Some _ => inl (LIMIT_UNEXPECTED_FILE fieldname)
            end
          else single name store lim at_limit req_file rest
      | None => single name store lim at_limit req_file rest
      end
  end.

(** [multer.memoryStorage()] *)
Definition memoryStorage : storage :=
  fun fieldname originalname mimeType content =>
    mk_file fieldname originalname mimeType "" content.

(** [multer.diskStorage({ destination, filename })]: the file is written
    to [path.join(destination, filename)]. *)
Definition diskStorage (now rnd : Z) : storage :=
  fun fieldname originalname mimeType content =>
    mk_file fieldname originalname mimeType
      (DiskBuffered.destination
         +:+ DiskBuffered.filename fieldname originalname now rnd)
      content.

End Multer.

(** [limits: { fileSize: 1024 * 1024 * 5000 }] of the disk-buffered revision *)
Definition disk_limits : Multer.limits :=
  Multer.mk_limits Multer.default_fieldSize (1024 * 1024 * 5000).

(** [limits: { fileSize: 1024 * 1024 * 1000 }] of the in-memory revision *)
Definition memory_limits : Multer.limits :=
  Multer.mk_limits Multer.default_fieldSize (1024 * 1024 * 1000).

(** The whole route of the disk-buffered revision: multer first (storing the
    file, named after the clock [now] and the random number [rnd]), then the
    handler. *)
Definition disk_route (w : world) (now rnd : Z) (parts : list part) (s : state)
    : Multer.error + outcome unit * state :=
  match Multer.single "videoFile" (Multer.diskStorage now rnd) disk_limits
          (truncates_at_limit w) None parts with
  | inl err => inl err
  | inr None => inr (DiskBuffered.upload w None s)
  | inr (Some file) =>
      inr (DiskBuffered.upload w (Some file)
             (mk_state (res s) ({[path file]} ∪ disk s) (trace s)))
  end.

(** The whole route of the in-memory revision. *)
Definition memory_route (w : world) (parts : list part) (s : state)
    : Multer.error + outcome unit * state :=
  match Multer.single "videoFile" Multer.memoryStorage memory_limits
          (truncates_at_limit w) None parts with
  | inl err => inl err
  | inr req_file => inr (InMemory.upload w req_file s)
  end.

(** ** Vocabulary of the properties *)

Definition is_provider_call (e : event) : bool :=
  match e with
  | Get _ _ _ | Post _ _ _ => true
  | _ => false
  end.

Definition is_post (e : event) : bool :=
  match e with
  | Post _ _ _ => true
  | _ => false
  end.

Definition is_unlink (e : event) : bool :=
  match e with
  | Unlink _ => true
  | _ => false
  end.

Definition is_console (e : event) : bool :=
  match e with
  | Console _ _ => true
  | _ => false
  end.

(** The response a finished handler left behind. *)
Definition responded {A} (x : outcome A * state) : option response := res (snd x).

(** The effects of a finished handler. *)
Definition effects {A} (x : outcome A * state) : list event := trace (snd x).

(** The endpoint of the negotiation call. *)
Definition ul_url : string := API_BASE_URL +:+ "/file/ul".

Fixpoint is_prefix (p s : string) : bool :=
  match p, s with
  | EmptyString, _ => true
  | String a p', String b s' => Ascii.eqb a b && is_prefix p' s'
  | String _ _, EmptyString => false
  end.

(** [contains m s]: [m] occurs in [s]. *)
Fixpoint contains (m s : string) : bool :=
  is_prefix m s ||
  match s with
  | EmptyString => false
  | String _ s' => contains m s'
  end.

(** The file test of the listing route, in the words of its description:
    the [linkid] is truthy and [convert] is the string [converted]. *)
Definition converted_with_link (file : jsval) : bool :=
  truthy (field "linkid" file) && strict_eq (field "convert" file) (JStr "converted").

(** The URL the listing route asks the provider for. *)
Definition listfolder_url (w : world) : string :=
  API_BASE_URL +:+ "/file/listfolder?login=" +:+ env_str (STREAMTAPE_LOGIN w)
    +:+ "&key=" +:+ env_str (STREAMTAPE_KEY w)
    +:+ "&folder=" +:+ env_str (STREAMTAPE_FOLDER_ID w).

(** The four revisions of POST /api/upload found in the repository. *)
Inductive revision : Type :=
  | Streamed          (* src/index.js *)
  | StreamedEarlier   (* the earlier busboy revision *)
  | OnDisk            (* multer disk storage *)
  | InMemoryBuffer.   (* multer memory storage *)

(** The handler of a revision: the busboy revisions see the parts of the
    body, the multer revisions see [req.file]. *)
Definition run_upload (rev : revision) (w : world) (parts : list part)
    (req_file : option multer_file) : M unit :=
  match rev with
  | Streamed => IndexJs.upload w parts
  | StreamedEarlier => BusboyEarlier.upload w parts
  | OnDisk => DiskBuffered.upload w req_file
  | InMemoryBuffer => InMemory.upload w req_file
  end.

(** The whole route of a revision on a multipart body. *)
Definition route (rev : revision) (w : world) (now rnd : Z) (parts : list part)
    (s : state) : Multer.error + outcome unit * state :=
  match rev with
  | Streamed => inr (IndexJs.upload w parts s)
  | StreamedEarlier => inr (BusboyEarlier.upload w parts s)
  | OnDisk => disk_route w now rnd parts s
  | InMemoryBuffer => memory_route w parts s
  end.

(** The revisions that let multer buffer the file before the handler runs. *)
Definition buffered (rev : revision) : bool :=
  match rev with
  | OnDisk | InMemoryBuffer => true
  | Streamed | StreamedEarlier => false
  end.

(** The provider's envelope does not report success: its status is not 200
    or its result lacks [key]. *)
Definition envelope_refused (key : string) (env : jsval) : bool :=
  negb (strict_eq (field "status" env) (JNum 200))
  || negb (truthy (opt_field key (field "result" env))).

(** The negotiation step fails: the call is rejected (timeout, network or
    HTTP error), the provider stays silent, or its envelope is refused. *)
Definition negotiation_fails (w : world) : bool :=
  match provider_get w ul_url with
  | Rejected _ | Silent => true
  | Resolved init => envelope_refused "url" init
  end.

(** What axios raises when a request is aborted by its timeout, and what
    [axios.isCancel] recognises. *)
Definition timed_out (e : js_error) : bool :=
  err_cancel e || code_is "ECONNABORTED" e.

Definition is_silent (r : axios_result) : bool :=
  match r with
  | Silent => true
  | _ => false
  end.


(** The timeout each revision passes to the transfer. *)
Definition relay_timeout (rev : revision) : option Z :=
  match rev with
  | Streamed => Some 300000
  | OnDisk => Some 600000
  | StreamedEarlier | InMemoryBuffer => None
  end.



(** The normalized success payload for a provider result. *)
Definition success_payload (result : jsval) : jsval :=
  JObj [("success", JBool true);
        ("message", JStr "Video uploaded successfully!");
        ("data", JObj [("fileId", field "id" result);
                       ("fileName", field "name" result);
                       ("streamUrl",
                        JStr ("https://streamtape.com/e/" +:+ to_string (field "id" result)));
                       ("downloadUrl", field "url" result);
                       ("size", field "size" result);
                       ("contentType", field "content_type" result);
                       ("sha256", field "sha256" result)])].




(** A part multer lets through without a file for the handler: a form field
    shorter than the parser's field limit, or a file part without a
    filename. *)
Definition passes_multer (p : part) : bool :=
  match p with
  | FieldPart _ val => Z.of_nat (String.length val) <? Multer.default_fieldSize
  | FilePart _ filename _ _ => negb (truthy (opt_str filename))
  end.


(** The parts of the body other than [videoFile] files are ones multer lets
    through. *)
Definition harmless_extras (rev : revision) (parts : list part) : bool :=
  negb (buffered rev)
  || forallb (fun p => is_video_file p || passes_multer p) parts.

(** The statement about other parts, at one request: the outcome is that of
    the body reduced to its [videoFile] file parts. *)
Definition other_parts_ignored (rev : revision) (w : world) (now rnd : Z)
    (parts : list part) (d : gset string) : Prop :=
  route rev w now rnd parts (fresh d)
  = route rev w now rnd (List.filter is_video_file parts) (fresh d).

(** What a client, the provider and the disk can tell of a request: how the
    route ended, the response, the files, and the effects other than console
    lines. *)
Definition observable (x : Multer.error + outcome unit * state)
    : Multer.error + (outcome unit * option response * gset string * list event) :=
  match x with
  | inl err => inl err
  | inr (o, s) =>
      inr (o, res s, disk s, List.filter (fun e => negb (is_console e)) (trace s))
  end.

(** What the file-stream listener answers on a request that has had no
    answer yet. *)
Definition stream_error_answer : response :=
  mk_response 500 (failure "File stream error during upload.").

(** What the finish listener answers to a body without a [videoFile] part. *)
Definition no_file_answer : response :=
  mk_response 400 (failure "No file uploaded.").

(** ** Sample data *)

Definition sample_init : jsval :=
  JObj [("status", JNum 200); ("msg", JStr "OK");
        ("result", JObj [("url", JStr "https://tapecontent.net/upload/abc")])].

Definition sample_up : jsval :=
  JObj [("status", JNum 200); ("msg", JStr "OK");
        ("result", JObj [("url", JStr "https://streamtape.com/v/XYZ/clip.mp4");
                         ("sha256", JStr "ab12");
                         ("name", JStr "clip.mp4");
                         ("size", JStr "10");
                         ("content_type", JStr "video/mp4");
                         ("id", JStr "XYZ")])].

Definition sample_denied : jsval :=
  JObj [("status", JNum 403); ("msg", JStr "denied"); ("result", JNull)].

Definition sample_files : list jsval :=
  [JObj [("linkid", JStr "a1"); ("convert", JStr "converted")];
   JObj [("linkid", JStr "b2"); ("convert", JStr "pending")];
   JObj [("linkid", JStr ""); ("convert", JStr "converted")]].

Definition sample_listing : jsval :=
  JObj [("status", JNum 200); ("msg", JStr "OK");
        ("result", JObj [("files", JArr sample_files)])].

Definition EPERM : js_error :=
  mk_error false (Some "EPERM") None "EPERM: operation not permitted, unlink".

Definition sample_world (get post : axios_result) (refused : option js_error)
    (errors : await_point -> bool) : world :=
  mk_world (Some "login") (Some "key") (Some "folder")
    (fun _ => get) (fun _ => post) (fun _ => refused) errors 0 true (fun _ => 0).

Definition calm : await_point -> bool := fun _ => false.

Definition clip : part :=
  FilePart "videoFile" (Some "clip.mp4") "video/mp4"
    [Byte.x00; Byte.x01; Byte.x02; Byte.x03; Byte.x04;
     Byte.x05; Byte.x06; Byte.x07; Byte.x08; Byte.x09].

Definition thumbnail : part :=
  FilePart "thumbnail" (Some "clip.png") "image/png" [Byte.x89; Byte.x50].

Definition clip_file : multer_file :=
  Multer.diskStorage 1700000000000 123456789 "videoFile" "clip.mp4" "video/mp4"
    [Byte.x00; Byte.x01; Byte.x02; Byte.x03; Byte.x04;
     Byte.x05; Byte.x06; Byte.x07; Byte.x08; Byte.x09].

(** ** The remaining routes of src/index.js *)

Module Proxies.

(** [data.status === 200 && data.result] as a condition *)
Definition result_ok (data : jsval) : M bool :=
  st <- get "status" data ;;
  if strict_eq st (JNum 200) then
    result <- get "result" data ;;
    ret (truthy result)
  else ret false.

(** [app.get("/api/videos/:linkId/thumbnail", ...)] *)
Definition get_thumbnail (w : world) (linkId : string) : M unit :=
  try_catch
    (let streamtapeUrl :=
       API_BASE_URL +:+ "/file/getsplash?login=" +:+ env_str (STREAMTAPE_LOGIN w)
         +:+ "&key=" +:+ env_str (STREAMTAPE_KEY w)
         +:+ "&file=" +:+ linkId in
     data <- axios_get w streamtapeUrl [] None ;;
     ok <- result_ok data ;;
     if ok then
       result <- get "result" data ;;
       res_json (JObj [("success", JBool true); ("thumbnailUrl", result)])
     else
       msg <- get "msg" data ;;
       console LError ("Streamtape API error (getsplash for " +:+ linkId +:+ "):") ;;;
       st <- get "status" data ;;
       res_status_json (status_code_of w (js_or st (JNum 500)))
         (JObj [("success", JBool false);
                ("message", js_or msg (JStr "Failed to get thumbnail."))]))
    (fun error =>
       console LError ("Error fetching thumbnail for " +:+ linkId +:+ ":") ;;;
       res_status_json 500 (failure "Server error while fetching thumbnail.")).

(** [app.get("/api/videos/:linkId/download-ticket", ...)] *)
Definition download_ticket (w : world) (linkId : string) : M unit :=
  try_catch
    (let streamtapeUrl :=
       API_BASE_URL +:+ "/file/dlticket?login=" +:+ env_str (STREAMTAPE_LOGIN w)
         +:+ "&key=" +:+ env_str (STREAMTAPE_KEY w)
         +:+ "&file=" +:+ linkId in
     data <- axios_get w streamtapeUrl [] None ;;
     ok <- result_ok data ;;
     if ok then
       result <- get "result" data ;;
       ticket <- get "ticket" result ;;
       wait_time <- get "wait_time" result ;;
       res_json (JObj [("success", JBool true);
                       ("ticket", ticket);
                       ("wait_time", wait_time)])
     else
       msg <- get "msg" data ;;
       console LError ("Streamtape API error (dlticket for " +:+ linkId +:+ "):") ;;;
       st <- get "status" data ;;
       res_status_json (status_code_of w (js_or st (JNum 500)))
         (JObj [("success", JBool false);
                ("message", js_or msg (JStr "Failed to get download ticket."))]))
    (fun error =>
       console LError ("Error fetching download ticket for " +:+ linkId +:+ ":") ;;;
       res_status_json 500 (failure "Server error while fetching download ticket.")).

End Proxies.

(** ** POST /api/remote-upload (the disk-buffered revision's file) *)

Module RemoteUpload.

(** [const { k } = v]: destructuring [null] or [undefined] throws. *)
Definition destructure (k : string) (v : jsval) : M jsval :=
  if nullish v then
    throw (mk_error false None None
             ("Cannot destructure property '" +:+ k +:+ "' of 'req.body' as it is "
                +:+ to_string v +:+ "."))
  else ret (field k v).

(** A query parameter as handed to axios: [null] and [undefined] are left
    out; the value is recorded by its ToString (what axios sends for strings,
    numbers and booleans). *)
Definition param (v : jsval) : option string :=
  if nullish v then None else Some (to_string v).

(** [app.post("/api/remote-upload", ...)]; [req_body] is [req.body]. *)
Definition remote_upload (w : world) (req_body : jsval) : M unit :=
  url <- destructure "url" req_body ;;
  name <- destructure "name" req_body ;;
  if negb (truthy url) then
    res_status_json 400 (failure "Remote URL is required.")
  else
    try_catch
      (let streamtapeRemoteDlUrl := API_BASE_URL +:+ "/remotedl/add" in
       let params :=
         [("login", STREAMTAPE_LOGIN w); ("key", STREAMTAPE_KEY w);
          ("url", param url); ("folder", STREAMTAPE_FOLDER_ID w)]
         ++ (if truthy name then [("name", param name)] else []) in
       data <- axios_get w streamtapeRemoteDlUrl params None ;;
       ok <- Proxies.result_ok data ;;
       if ok then
         result <- get "result" data ;;
         id <- get "id" result ;;
         console LLog ("Remote upload initiated for URL: " +:+ to_string url
                         +:+ ". Streamtape ID: " +:+ to_string id) ;;;
         folderid <- get "folderid" result ;;
         res_status_json 200
           (JObj [("success", JBool true);
                  ("message", JStr "Remote upload initiated successfully.");
                  ("remoteUploadId", id);
                  ("folderId", folderid)])
       else
         msg <- get "msg" data ;;
         console LError "Streamtape Remote DL API error (add):" ;;;
         st <- get "status" data ;;
         res_status_json (status_code_of w (js_or st (JNum 500)))
           (JObj [("success", JBool false);
                  ("message", js_or msg (JStr "Failed to initiate remote upload."))]))
      (fun error =>
         console LError "Error initiating remote upload:" ;;;
         res_status_json 500
           (failure ("Server error initiating remote upload: " +:+ err_message error))).

End RemoteUpload.

(** ** The CORS origin check of src/index.js *)

Module Cors.

(** [allowedOrigins], from [process.env.NODE_ENV] and [process.env.FRONTEND_URL] *)
Definition allowedOrigins (NODE_ENV FRONTEND_URL : option string) : list jsval :=
  if strict_eq (opt_str NODE_ENV) (JStr "production") then [opt_str FRONTEND_URL]
  else [JStr "http://localhost:5173"].

(** [l.indexOf(x)], counting from [i] *)
Fixpoint indexOf (x : jsval) (l : list jsval) (i : Z) : Z :=
  match l with
  | [] => -1
  | y :: rest => if strict_eq y x then i else indexOf x rest (i + 1)
  end.

(** The [origin] function handed to [cors]: what it passes to [callback]
    (the error, if any, and whether the origin is allowed); [request_origin]
    is the Origin header. *)
Definition origin (allowed : list jsval) (request_origin : option string)
    : option js_error * bool :=
  if negb (truthy (opt_str request_origin)) then (None, true)
  else if indexOf (opt_str request_origin) allowed 0 =? -1 then
    (Some (new_Error
             (JStr "The CORS policy for this site does not allow access from the specified Origin.")),
     false)
  else (None, true).

End Cors.

(** ** Vocabulary of the further properties *)

Definition is_send (e : event) : bool :=
  match e with
  | Send _ => true
  | _ => false
  end.

(** How many responses a trace holds. *)
Definition sends (t : list event) : nat := length (List.filter is_send t).

(** The provider calls of a trace, in order. *)
Definition provider_calls (t : list event) : list event :=
  List.filter is_provider_call t.

(** The timeout each revision passes to the negotiation. *)
Definition negotiation_timeout (rev : revision) : option Z :=
  match rev with
  | Streamed | OnDisk => Some 60000
  | StreamedEarlier | InMemoryBuffer => None
  end.

(** The credentials every upload revision sends with the negotiation. *)
Definition credentials (w : world) : list (string * option string) :=
  [("login", STREAMTAPE_LOGIN w); ("key", STREAMTAPE_KEY w);
   ("folder", STREAMTAPE_FOLDER_ID w)].

(** The HTTP status of a rejected provider call, when it has one, is a
    status code Node can write. *)
Definition writable_status (e : js_error) : bool :=
  match err_response e with
  | Some (st, _) => (100 <=? st) && (st <=? 999)
  | None => true
  end.

Definition has_dot (s : string) : bool := contains "." s.

Definition sample_http_error : js_error :=
  mk_error false (Some "ERR_BAD_REQUEST")
    (Some (403, JObj [("status", JNum 403); ("msg", JStr "Forbidden key")]))
    "Request failed with status code 403".

Definition sample_network_error : js_error :=
  mk_error false (Some "ECONNRESET") None "socket hang up".

(** The URLs the proxy routes ask the provider for. *)
Definition thumbnail_url (w : world) (linkId : string) : string :=
  API_BASE_URL +:+ "/file/getsplash?login=" +:+ env_str (STREAMTAPE_LOGIN w)
    +:+ "&key=" +:+ env_str (STREAMTAPE_KEY w) +:+ "&file=" +:+ linkId.

Definition dlticket_url (w : world) (linkId : string) : string :=
  API_BASE_URL +:+ "/file/dlticket?login=" +:+ env_str (STREAMTAPE_LOGIN w)
    +:+ "&key=" +:+ env_str (STREAMTAPE_KEY w) +:+ "&file=" +:+ linkId.

Definition dl_url (linkId : string) (ticket : jsval) : string :=
  API_BASE_URL +:+ "/file/dl?file=" +:+ linkId +:+ "&ticket=" +:+ to_string ticket.

Definition remotedl_url : string := API_BASE_URL +:+ "/remotedl/add".

Definition sample_empty : jsval :=
  JObj [("status", JNum 200); ("msg", JStr "OK"); ("result", JNull)].

Definition sample_link : jsval :=
  JObj [("status", JNum 200); ("msg", JStr "OK");
        ("result", JObj [("url", JStr "https://tapecontent.net/get/abc");
                         ("name", JStr "clip.mp4")])].

Definition sample_ticket_query : gmap string jsval := {["ticket" := JStr "t0k3n"]}.

Definition sample_blank_query : gmap string jsval := {["ticket" := JStr ""]}.

Definition sample_remote_body : jsval :=
  JObj [("url", JStr "https://example.org/clip.mp4"); ("name", JStr "holiday")].

(** ** Symbolic execution of handlers *)

Ltac unfold_monad :=
  cbv [try_catch try_finally bind ret throw axios_get axios_post settle await
       console get headers_sent res_status_json res_json].

(** Case analysis on a scrutinee that blocks evaluation. *)
Ltac split_stuck :=
  match goal with
  | |- context [match ?x with _ => _ end] =>
      lazymatch x with
      | context [match _ with _ => _ end] => fail
      | _ => destruct x eqn:?
      end
  end.

Ltac explore := unfold_monad; cbn; repeat (split_stuck; cbn).

Arguments String.append : simpl never.
Arguments pretty : simpl never.
Arguments bool_decide : simpl never.

(** ** Basic facts about values and the monad *)

Lemma field_not_undefined_obj k v :
  field k v <> JUndefined -> exists props, v = JObj props.
Proof.
  destruct v; simpl; try congruence. eauto.
Qed.

Lemma get_field k v s :
  nullish v = false -> get k v s = (Ret (field k v), s).
Proof.
  intros Hv. unfold get. rewrite Hv. reflexivity.
Qed.

Lemma bind_eq {A B} (m : M A) (k : A -> M B) s a s' :
  m s = (Ret a, s') -> bind m k s = k a s'.
Proof. intros H. unfold bind. rewrite H. reflexivity. Qed.






(** ** GET /api/videos *)

Lemma keep_file_spec file s :
  nullish file = false ->
  Routes.keep_file file s = (Ret (converted_with_link file), s).
Proof.
  intros Hf. unfold Routes.keep_file, converted_with_link.
  rewrite (bind_eq _ _ _ _ _ (get_field "linkid" file s Hf)).
  destruct (truthy (field "linkid" file)); simpl.
  - rewrite (bind_eq _ _ _ _ _ (get_field "convert" file s Hf)). reflexivity.
  - reflexivity.
Qed.

Lemma filter_items_spec files s :
  Forall (fun file => nullish file = false) files ->
  Routes.filter_items Routes.keep_file files s
  = (Ret (List.filter converted_with_link files), s).
Proof.
  induction 1 as [|file files Hfile _ IH]; simpl.
  - reflexivity.
  - rewrite (bind_eq _ _ _ _ _ (keep_file_spec file s Hfile)).
    rewrite (bind_eq _ _ _ _ _ IH).
    destruct (converted_with_link file); reflexivity.
Qed.

(** C10. When the provider answers the listing call with a success envelope
    (status 200) whose result carries a files list of file objects, the route
    answers 200 with [success: true] and a [videos] array holding exactly the
    files whose [linkid] is truthy and whose [convert] is the string
    [converted], in the provider's order; the other files are left out. *)
Theorem videos_are_the_converted_files_with_link
    (w : world) (data : jsval) (files : list jsval) (d : gset string) :
  provider_get w (listfolder_url w) = Resolved data ->
  field "status" data = JNum 200 ->
  field "files" (field "result" data) = JArr files ->
  Forall (fun file => nullish file = false) files ->
  responded (Routes.get_videos w (fresh d))
  = Some (mk_response 200
            (JObj [("success", JBool true);
                   ("videos", JArr (List.filter converted_with_link files))])).
Proof.
  intros Hget Hst Hfiles Hobj.
  destruct (field_not_undefined_obj "status" data) as [props ->];
    [rewrite Hst; discriminate|].
  destruct (field_not_undefined_obj "files" (field "result" (JObj props)))
    as [rprops Hres]; [rewrite Hfiles; discriminate|].
  cbn [field] in Hst, Hres, Hfiles. rewrite Hres in Hfiles. cbn [field] in Hfiles.
  unfold responded, Routes.get_videos, Routes.listing_ok, Routes.array_filter,
    listfolder_url in *.
  unfold_monad. rewrite Hget. cbn. rewrite Hst. cbn. rewrite Hres. cbn.
  rewrite Hfiles. cbn.
  rewrite (filter_items_spec files _ Hobj). reflexivity.
Qed.

Lemma videos_are_the_converted_files_with_link_witness :
  responded (Routes.get_videos
               (sample_world (Resolved sample_listing) (Resolved JNull) None calm)
               (fresh ∅))
  = Some (mk_response 200
            (JObj [("success", JBool true);
                   ("videos",
                    JArr [JObj [("linkid", JStr "a1"); ("convert", JStr "converted")]])])).
Proof.
  apply (videos_are_the_converted_files_with_link
           (sample_world (Resolved sample_listing) (Resolved JNull) None calm)
           sample_listing sample_files ∅).
  - reflexivity.
  - reflexivity.
  - reflexivity.
  - repeat constructor.
Defined.

(** ** GET /api/videos/:linkId/download-link *)

(** C9. A download-link request whose query string has no [ticket] parameter
    is answered 400 with [{success: false, message}] and the provider is not
    called. *)
Theorem download_link_without_ticket_is_refused
    (w : world) (linkId : string) (query : gmap string jsval) (d : gset string) :
  query !! "ticket" = None ->
  responded (Routes.download_link w linkId query (fresh d))
  = Some (mk_response 400 (failure "Download ticket is required."))
  /\ Forall (fun e => is_provider_call e = false)
       (effects (Routes.download_link w linkId query (fresh d))).
Proof.
  intros Hq. unfold Routes.download_link. rewrite Hq. cbn.
  split; [reflexivity|]. repeat constructor.
Qed.

Lemma download_link_without_ticket_is_refused_witness :
  (∅ : gmap string jsval) !! "ticket" = None
  /\ responded (Routes.download_link
                  (sample_world (Resolved sample_init) (Resolved sample_up) None calm)
                  "abc" ∅ (fresh ∅))
     = Some (mk_response 400 (failure "Download ticket is required.")).
Proof.
  split; [reflexivity|].
  apply (download_link_without_ticket_is_refused
           (sample_world (Resolved sample_init) (Resolved sample_up) None calm)
           "abc" ∅ ∅).
  reflexivity.
Defined.

(** ** The busboy callbacks *)

Lemma console_is_no_post t :
  Forall (fun e => is_console e = true) t ->
  Forall (fun e => is_post e = false) t.
Proof.
  induction 1 as [|e t He _ IH]; constructor; [|exact IH].
  destruct e; simpl in *; congruence.
Qed.

Lemma sends_console t :
  Forall (fun e => is_console e = true) t -> sends t = 0%nat.
Proof.
  unfold sends. induction 1 as [|e t He _ IH]; [reflexivity|].
  cbn [List.filter]. destruct e; try discriminate He. exact IH.
Qed.

Lemma calls_console t :
  Forall (fun e => is_console e = true) t -> provider_calls t = [].
Proof.
  unfold provider_calls. induction 1 as [|e t He _ IH]; [reflexivity|].
  cbn [List.filter]. destruct e; try discriminate He. exact IH.
Qed.

Lemma calls_app t1 t2 :
  provider_calls (t1 ++ t2) = provider_calls t1 ++ provider_calls t2.
Proof. unfold provider_calls. apply List.filter_app. Qed.

Lemma sends_app t1 t2 : sends (t1 ++ t2) = (sends t1 + sends t2)%nat.
Proof. unfold sends. rewrite List.filter_app. apply List.length_app. Qed.

Lemma quiet_console t :
  Forall (fun e => is_console e = true) t ->
  List.filter (fun e => negb (is_console e)) t = [].
Proof.
  induction 1 as [|e t He _ IH]; [reflexivity|].
  cbn [List.filter]. rewrite He. exact IH.
Qed.

(** The parser may stop short, but never before the first [videoFile] part. *)
Lemma delivered_video_file k parts :
  existsb is_video_file (delivered k parts) = existsb is_video_file parts.
Proof.
  induction parts as [|p parts IH]; [reflexivity|].
  cbn [delivered existsb]. destruct (is_video_file p) eqn:Hp; cbn [orb].
  - reflexivity.
  - exact IH.
Qed.

(** The file and field callbacks only write console lines; they store a
    stream exactly when a [videoFile] file part goes by. *)
Lemma IndexJs_on_parts parts : forall v s,
  exists v' t,
    IndexJs.on_parts parts v s
    = (Ret v', mk_state (res s) (disk s) (trace s ++ t))
    /\ Forall (fun e => is_console e = true) t
    /\ (existsb is_video_file parts = true -> IndexJs.fileStream v' <> None)
    /\ (IndexJs.fileStream v <> None -> IndexJs.fileStream v' <> None)
    /\ (existsb is_video_file parts = false -> v' = v /\ t = []).
Proof.
  induction parts as [|p parts IH]; intros v s.
  - exists v, []. rewrite app_nil_r. destruct s.
    repeat split; auto; discriminate.
  - destruct p as [fieldname filename mt content|fieldname val];
      cbn [IndexJs.on_parts existsb is_video_file orb].
    + unfold IndexJs.on_file.
      destruct (String.eqb fieldname "videoFile"); cbn [negb orb].
      * unfold_monad. cbn.
        match goal with |- context [IndexJs.on_parts parts ?v1 ?s1] =>
          destruct (IH v1 s1) as (v' & t & -> & Ht & _ & Hkeep & _) end.
        cbn. eexists v', (_ :: t). rewrite <- app_assoc.
        split; [reflexivity|].
        split; [constructor; [reflexivity|exact Ht]|].
        repeat split; try discriminate; intros; apply Hkeep; discriminate.
      * unfold_monad. cbn. apply IH.
    + unfold IndexJs.on_field. unfold_monad. cbn. apply IH.
Qed.

Lemma BusboyEarlier_on_parts parts : forall v s,
  exists v' t,
    BusboyEarlier.on_parts parts v s
    = (Ret v', mk_state (res s) (disk s) (trace s ++ t))
    /\ Forall (fun e => is_console e = true) t
    /\ (existsb is_video_file parts = true -> BusboyEarlier.fileStream v' <> None)
    /\ (BusboyEarlier.fileStream v <> None -> BusboyEarlier.fileStream v' <> None)
    /\ (existsb is_video_file parts = false -> v' = v /\ t = []).
Proof.
  induction parts as [|p parts IH]; intros v s.
  - exists v, []. rewrite app_nil_r. destruct s.
    repeat split; auto; discriminate.
  - destruct p as [fieldname filename mt content|fieldname val];
      cbn [BusboyEarlier.on_parts existsb is_video_file orb].
    + unfold BusboyEarlier.on_file.
      destruct (String.eqb fieldname "videoFile"); cbn [negb orb].
      * unfold_monad. cbn.
        match goal with |- context [BusboyEarlier.on_parts parts ?v1 ?s1] =>
          destruct (IH v1 s1) as (v' & t & -> & Ht & _ & Hkeep & _) end.
        cbn. eexists v', (_ :: t). rewrite <- app_assoc.
        split; [reflexivity|].
        split; [constructor; [reflexivity|exact Ht]|].
        repeat split; try discriminate; intros; apply Hkeep; discriminate.
      * unfold_monad. cbn. apply IH.
    + unfold BusboyEarlier.on_field. unfold_monad. cbn. apply IH.
Qed.

(** A body with a [videoFile] part: the part callbacks write their console
    lines, ['finish'] never comes, and the only answer there can be is the
    one of the stream's error listener. *)
Lemma IndexJs_upload_with_file w parts d :
  existsb is_video_file parts = true ->
  exists t,
    Forall (fun e => is_console e = true) t
    /\ IndexJs.upload w parts (fresh d)
       = if stream_error_at w BeforeFinish
         then (Ret tt, mk_state (Some stream_error_answer) d
                         (t ++ [Console LError "Error on file stream:";
                                Send stream_error_answer]))
         else (Ret tt, mk_state None d t).
Proof.
  intros Hfile. unfold IndexJs.upload.
  destruct (IndexJs_on_parts (delivered (backlog w) parts)
              (IndexJs.mk_vars None "unknown_file") (fresh d))
    as (v & t & Hparts & Ht & Hsome & _ & _).
  rewrite delivered_video_file in Hsome. specialize (Hsome Hfile).
  exists t. split; [exact Ht|].
  rewrite (bind_eq _ _ _ _ _ Hparts).
  destruct v as [[file|] name]; [|cbn in Hsome; congruence].
  cbn [IndexJs.fileStream]. unfold IndexJs.stream_error, IndexJs.on_file_error.
  cbn [IndexJs.fileStream].
  destruct (stream_error_at w BeforeFinish); [|reflexivity].
  unfold_monad. cbn. rewrite <- app_assoc. reflexivity.
Qed.

Lemma BusboyEarlier_upload_with_file w parts d :
  existsb is_video_file parts = true ->
  exists t,
    Forall (fun e => is_console e = true) t
    /\ BusboyEarlier.upload w parts (fresh d)
       = if stream_error_at w BeforeFinish
         then (Ret tt, mk_state (Some stream_error_answer) d
                         (t ++ [Console LError "Error on file stream:";
                                Send stream_error_answer]))
         else (Ret tt, mk_state None d t).
Proof.
  intros Hfile. unfold BusboyEarlier.upload.
  destruct (BusboyEarlier_on_parts (delivered (backlog w) parts)
              (BusboyEarlier.mk_vars None "unknown_file") (fresh d))
    as (v & t & Hparts & Ht & Hsome & _ & _).
  rewrite delivered_video_file in Hsome. specialize (Hsome Hfile).
  exists t. split; [exact Ht|].
  rewrite (bind_eq _ _ _ _ _ Hparts).
  destruct v as [[file|] name]; [|cbn in Hsome; congruence].
  cbn [BusboyEarlier.fileStream].
  unfold BusboyEarlier.stream_error, BusboyEarlier.on_file_error.
  cbn [BusboyEarlier.fileStream].
  destruct (stream_error_at w BeforeFinish); [|reflexivity].
  unfold_monad. cbn. rewrite <- app_assoc. reflexivity.
Qed.

(** A body without a [videoFile] part: ['finish'] comes and the listener
    refuses the request. *)
Lemma IndexJs_upload_without_file w parts d :
  existsb is_video_file parts = false ->
  IndexJs.upload w parts (fresh d)
  = (Ret tt, mk_state (Some no_file_answer) d
               [Console LWarn "No file stream found in upload request.";
                Send no_file_answer]).
Proof.
  intros Hnone. unfold IndexJs.upload.
  destruct (IndexJs_on_parts (delivered (backlog w) parts)
              (IndexJs.mk_vars None "unknown_file") (fresh d))
    as (v & t & Hparts & _ & _ & _ & Hsame).
  rewrite delivered_video_file in Hsame. destruct (Hsame Hnone) as [-> ->].
  rewrite (bind_eq _ _ _ _ _ Hparts). reflexivity.
Qed.

Lemma BusboyEarlier_upload_without_file w parts d :
  existsb is_video_file parts = false ->
  BusboyEarlier.upload w parts (fresh d)
  = (Ret tt, mk_state (Some no_file_answer) d
               [Console LWarn "No file stream found in upload request.";
                Send no_file_answer]).
Proof.
  intros Hnone. unfold BusboyEarlier.upload.
  destruct (BusboyEarlier_on_parts (delivered (backlog w) parts)
              (BusboyEarlier.mk_vars None "unknown_file") (fresh d))
    as (v & t & Hparts & _ & _ & _ & Hsame).
  rewrite delivered_video_file in Hsame. destruct (Hsame Hnone) as [-> ->].
  rewrite (bind_eq _ _ _ _ _ Hparts). reflexivity.
Qed.

(** The busboy revisions at a glance: what a request leaves behind depends
    only on whether the body has a [videoFile] part and whether its stream
    reports an error. *)
Lemma busboy_run rev w parts req_file d :
  rev = Streamed \/ rev = StreamedEarlier ->
  exists t,
    Forall (fun e => is_console e = true) t
    /\ run_upload rev w parts req_file (fresh d)
       = if existsb is_video_file parts then
           if stream_error_at w BeforeFinish
           then (Ret tt, mk_state (Some stream_error_answer) d
                           (t ++ [Console LError "Error on file stream:";
                                  Send stream_error_answer]))
           else (Ret tt, mk_state None d t)
         else (Ret tt, mk_state (Some no_file_answer) d
                         [Console LWarn "No file stream found in upload request.";
                          Send no_file_answer]).
Proof.
  intros [-> | ->]; cbn [run_upload];
    destruct (existsb is_video_file parts) eqn:Hfile.
  - exact (IndexJs_upload_with_file w parts d Hfile).
  - exists []. split; [constructor|]. exact (IndexJs_upload_without_file w parts d Hfile).
  - exact (BusboyEarlier_upload_with_file w parts d Hfile).
  - exists []. split; [constructor|].
    exact (BusboyEarlier_upload_without_file w parts d Hfile).
Qed.

Ltac enter_busboy rev w parts req_file d :=
  let t := fresh "t" in
  let Ht := fresh "Ht" in
  let Hrun := fresh "Hrun" in
  destruct (busboy_run rev w parts req_file d ltac:(auto)) as (t & Ht & Hrun);
  rewrite !Hrun; clear Hrun;
  destruct (existsb is_video_file parts) eqn:?;
  [destruct (stream_error_at w BeforeFinish) eqn:?|].

Ltac enter_DiskBuffered :=
  unfold DiskBuffered.upload, DiskBuffered.upload_try, DiskBuffered.upload_catch,
    DiskBuffered.upload_finally, DiskBuffered.response_text, unlink.

Ltac enter_InMemory :=
  unfold InMemory.upload, InMemory.upload_try, InMemory.upload_catch,
    InMemory.error_text.

(** Closing a goal [Forall P] over an explicit trace that starts with the
    console lines of the part callbacks. *)
Ltac trace_forall Hconsole :=
  repeat (apply Forall_app; split);
  first [ exact Hconsole | repeat constructor ].

(** ** Negotiation before transfer *)

(** C3. If the negotiation step fails (the call is rejected by timeout or
    network error, or its envelope has a status other than 200 or no result
    URL), no revision of POST /api/upload posts anything to an upload
    destination. *)
Theorem failed_negotiation_means_no_transfer
    (rev : revision) (w : world) (parts : list part)
    (req_file : option multer_file) (d : gset string) :
  negotiation_fails w = true ->
  Forall (fun e => is_post e = false)
    (effects (run_upload rev w parts req_file (fresh d))).
Proof.
  intros Hfail. unfold negotiation_fails, envelope_refused, ul_url in Hfail.
  unfold effects.
  destruct rev.
  - enter_busboy Streamed w parts req_file d.
    all: pose proof (console_is_no_post _ Ht) as Ht'.
    all: cbn; trace_forall Ht'.
  - enter_busboy StreamedEarlier w parts req_file d.
    all: pose proof (console_is_no_post _ Ht) as Ht'.
    all: cbn; trace_forall Ht'.
  - cbn [run_upload]. destruct req_file as [file|]; enter_DiskBuffered.
    all: explore.
    all: try congruence.
    all: repeat constructor.
  - cbn [run_upload]. destruct req_file as [file|]; enter_InMemory.
    all: explore.
    all: try congruence.
    all: repeat constructor.
Qed.

Lemma failed_negotiation_means_no_transfer_witness :
  negotiation_fails (sample_world (Resolved sample_denied) (Resolved sample_up) None calm)
  = true
  /\ Forall (fun e => is_post e = false)
       (effects (run_upload Streamed
                   (sample_world (Resolved sample_denied) (Resolved sample_up) None calm)
                   [clip] None (fresh ∅))).
Proof.
  split; [reflexivity|].
  apply (failed_negotiation_means_no_transfer Streamed
           (sample_world (Resolved sample_denied) (Resolved sample_up) None calm)
           [clip] None ∅).
  reflexivity.
Defined.

(** ** Requests without a file *)

Lemma not_truncated_below at_limit limit size :
  size < limit -> Multer.truncated at_limit limit size = false.
Proof.
  intros H. unfold Multer.truncated.
  destruct (Z.ltb_spec limit size); [lia|].
  destruct (Z.eqb_spec size limit); [lia|].
  destruct at_limit; reflexivity.
Qed.





(** ** The success payload *)

Lemma accepted_envelope key env :
  envelope_refused key env = false ->
  nullish env = false
  /\ nullish (field "result" env) = false
  /\ strict_eq (field "status" env) (JNum 200) = true
  /\ truthy (opt_field key (field "result" env)) = true.
Proof.
  unfold envelope_refused, opt_field. intros H.
  apply orb_false_iff in H as [Hst Hkey].
  apply negb_false_iff in Hst, Hkey.
  destruct env; try discriminate Hst.
  destruct (nullish (field "result" (JObj props))); [discriminate Hkey|].
  repeat split; assumption.
Qed.

Lemma envelope_with_message env m :
  field "msg" env = JStr m -> nullish env = false.
Proof.
  destruct env; try discriminate. reflexivity.
Qed.

(** Rewriting with everything known about the world, then evaluating. *)
Ltac rewrite_known :=
  repeat match goal with
         | H : ?l = _ |- context [?l] =>
             lazymatch l with
             | true => fail
             | false => fail
             | _ => rewrite H
             end
         end.

Ltac drive := unfold_monad; cbn; repeat (progress (rewrite_known; cbn)).



(** With a stored file and two accepted envelopes, the multer revisions
    answer 200 with the normalized payload. *)
Lemma buffered_upload_succeeds
    (rev : revision) (w : world) (parts : list part) (file : multer_file)
    (d : gset string) (init up : jsval) :
  buffered rev = true ->
  provider_get w ul_url = Resolved init ->
  envelope_refused "url" init = false ->
  provider_post w (field "url" (field "result" init)) = Resolved up ->
  envelope_refused "id" up = false ->
  responded (run_upload rev w parts (Some file) (fresh d))
  = Some (mk_response 200 (success_payload (field "result" up))).
Proof.
  intros Hrev Hget Hinit Hpost Hup.
  destruct (accepted_envelope _ _ Hinit) as (Hi1 & Hi2 & Hi3 & Hi4).
  destruct (accepted_envelope _ _ Hup) as (Hu1 & Hu2 & Hu3 & Hu4).
  unfold responded, ul_url, success_payload in *.
  destruct rev; try discriminate Hrev; clear Hrev; cbn [run_upload].
  - enter_DiskBuffered. drive.
    repeat (split_stuck; cbn); reflexivity.
  - enter_InMemory. drive. reflexivity.
Qed.



(** ** The three ways of receiving the file *)

(** multer stores a single named [videoFile] part that stays under the file
    limit. *)
Lemma Multer_single_one_file store lim at_limit name mime bytes :
  name <> "" ->
  Z.of_nat (length bytes) < Multer.fileSize lim ->
  Multer.single "videoFile" store lim at_limit None
    [FilePart "videoFile" (Some name) mime bytes]
  = inr (Some (store "videoFile" name mime bytes)).
Proof.
  intros Hname Hsize. cbn [Multer.single truthy].
  destruct (String.eqb_spec name ""); [contradiction|]. cbn [negb String.eqb].
  change ("videoFile" =? "videoFile")%string with true. cbn iota.
  rewrite (not_truncated_below at_limit _ _ Hsize). reflexivity.
Qed.

(** C6 does not hold of src/index.js.  For one and the same upload (a
    [videoFile] part with a filename, of a size every revision admits) and
    the same accepting provider, the disk-buffered and the in-memory revision
    answer 200 with the very same normalized payload, while the two busboy
    revisions never reach the provider: they store the part's stream without
    reading it, ['finish'] is withheld, and the only answer there can be is
    that of the stream's error listener. *)
Theorem only_buffered_revisions_send_the_payload
    (w : world) (now rnd : Z) (name mime : string) (bytes : list Byte.byte)
    (init up : jsval) (d : gset string) :
  name <> "" ->
  Z.of_nat (length bytes) < 1024 * 1024 * 1000 ->
  provider_get w ul_url = Resolved init ->
  envelope_refused "url" init = false ->
  provider_post w (field "url" (field "result" init)) = Resolved up ->
  envelope_refused "id" up = false ->
  let parts := [FilePart "videoFile" (Some name) mime bytes] in
  (forall rev,
      buffered rev = true ->
      exists done,
        route rev w now rnd parts (fresh d) = inr done
        /\ responded done
           = Some (mk_response 200 (success_payload (field "result" up))))
  /\ (forall rev,
        buffered rev = false ->
        exists done,
          route rev w now rnd parts (fresh d) = inr done
          /\ fst done = Ret tt
          /\ provider_calls (effects done) = []
          /\ (responded done = None \/ responded done = Some stream_error_answer)).
Proof.
  intros Hname Hsize Hget Hinit Hpost Hup parts. split.
  - intros rev Hrev. destruct rev; try discriminate Hrev; cbn [route].
    + unfold disk_route. subst parts.
      rewrite Multer_single_one_file; [|exact Hname|cbn; lia].
      eexists. split; [reflexivity|].
      exact (buffered_upload_succeeds OnDisk w [] _ _ init up eq_refl
               Hget Hinit Hpost Hup).
    + unfold memory_route. subst parts.
      rewrite Multer_single_one_file; [|exact Hname|cbn; lia].
      eexists. split; [reflexivity|].
      exact (buffered_upload_succeeds InMemoryBuffer w [] _ _ init up eq_refl
               Hget Hinit Hpost Hup).
  - intros rev Hrev.
    assert (Hbusboy : rev = Streamed \/ rev = StreamedEarlier)
      by (destruct rev; try discriminate Hrev; auto).
    destruct (busboy_run rev w parts None d Hbusboy) as (t & Ht & Hrun).
    exists (run_upload rev w parts None (fresh d)).
    split; [destruct Hbusboy as [-> | ->]; reflexivity|].
    rewrite Hrun. subst parts. cbn [existsb is_video_file].
    change ("videoFile" =? "videoFile")%string with true. cbn [orb].
    destruct (stream_error_at w BeforeFinish); cbn [fst effects responded snd trace res].
    + split; [reflexivity|]. split; [|right; reflexivity].
      rewrite calls_app, (calls_console _ Ht). reflexivity.
    + split; [reflexivity|]. split; [|left; reflexivity].
      apply calls_console, Ht.
Qed.

Lemma only_buffered_revisions_send_the_payload_witness :
  let w := sample_world (Resolved sample_init) (Resolved sample_up) None calm in
  "clip.mp4" <> ""
  /\ Z.of_nat (length [Byte.x00; Byte.x01; Byte.x02]) < 1024 * 1024 * 1000
  /\ provider_get w ul_url = Resolved sample_init
  /\ envelope_refused "url" sample_init = false
  /\ provider_post w (field "url" (field "result" sample_init)) = Resolved sample_up
  /\ envelope_refused "id" sample_up = false
  /\ (exists done,
        route OnDisk w 1700000000000 123456789
          [FilePart "videoFile" (Some "clip.mp4") "video/mp4"
             [Byte.x00; Byte.x01; Byte.x02]] (fresh ∅)
        = inr done
        /\ responded done
           = Some (mk_response 200 (success_payload (field "result" sample_up))))
  /\ (exists done,
        route Streamed w 1700000000000 123456789
          [FilePart "videoFile" (Some "clip.mp4") "video/mp4"
             [Byte.x00; Byte.x01; Byte.x02]] (fresh ∅)
        = inr done
        /\ fst done = Ret tt
        /\ provider_calls (effects done) = []
        /\ (responded done = None \/ responded done = Some stream_error_answer)).
Proof.
  intros w.
  split; [discriminate|]. split; [cbn; lia|]. repeat (split; [reflexivity|]).
  pose proof (only_buffered_revisions_send_the_payload w 1700000000000 123456789
                "clip.mp4" "video/mp4" [Byte.x00; Byte.x01; Byte.x02]
                sample_init sample_up ∅ ltac:(discriminate) ltac:(cbn; lia)
                eq_refl eq_refl eq_refl eq_refl) as [Hbuf Hstream].
  split.
  - exact (Hbuf OnDisk eq_refl).
  - exact (Hstream Streamed eq_refl).
Defined.

(** ** Provider messages in failure envelopes *)






(** ** Transfer timeouts *)



(** ** Other parts of the body *)

Lemma filter_video_file_idem parts :
  existsb is_video_file (List.filter is_video_file parts)
  = existsb is_video_file parts.
Proof.
  induction parts as [|p parts IH]; [reflexivity|].
  cbn [List.filter existsb]. destruct (is_video_file p) eqn:Hp.
  - cbn [existsb]. rewrite Hp. reflexivity.
  - exact IH.
Qed.

(** multer treats a body like the body without its harmless extras. *)
Lemma Multer_single_drops_extras name store lim at_limit parts :
  name = "videoFile" ->
  Multer.fieldSize lim = Multer.default_fieldSize ->
  forallb (fun p => is_video_file p || passes_multer p) parts = true ->
  forall req_file,
    Multer.single name store lim at_limit req_file parts
    = Multer.single name store lim at_limit req_file
        (List.filter is_video_file parts).
Proof.
  intros -> Hlim.
  induction parts as [|p parts IH]; intros Hall req_file; [reflexivity|].
  cbn [forallb] in Hall. apply andb_prop in Hall as [Hp Hall].
  specialize (IH Hall).
  destruct p as [fieldname filename mt content|fieldname val];
    cbn [List.filter is_video_file passes_multer orb] in *.
  - destruct (String.eqb fieldname "videoFile") eqn:Hname; cbn [orb] in Hp.
    + cbn [Multer.single]. rewrite Hname.
      destruct filename as [originalname|]; [|apply IH].
      destruct (truthy (JStr originalname)); [|apply IH].
      destruct req_file; [reflexivity|].
      destruct (Multer.truncated _ _ _); [reflexivity|apply IH].
    + cbn [Multer.single].
      destruct filename as [originalname|]; cbn [opt_str] in Hp; [|apply IH].
      apply negb_true_iff in Hp. rewrite Hp. apply IH.
  - cbn [Multer.single]. rewrite Hlim, not_truncated_below; [apply IH|].
    apply Z.ltb_lt, Hp.
Qed.

(** A named file under another field never gets past multer. *)
Lemma Multer_single_unexpected name store lim at_limit parts
    fieldname originalname mimeType content :
  In (FilePart fieldname (Some originalname) mimeType content) parts ->
  originalname <> "" ->
  fieldname <> name ->
  forall req_file,
    exists err, Multer.single name store lim at_limit req_file parts = inl err.
Proof.
  intros Hin Hname Hfield.
  assert (Htruthy : truthy (JStr originalname) = true).
  { cbn. destruct (String.eqb_spec originalname ""); [contradiction|reflexivity]. }
  assert (Hneq : String.eqb fieldname name = false).
  { destruct (String.eqb_spec fieldname name); [contradiction|reflexivity]. }
  induction parts as [|p parts IH]; [destruct Hin|].
  intros req_file. destruct Hin as [-> | Hin].
  - cbn [Multer.single]. rewrite Htruthy, Hneq.
    destruct req_file; eauto.
  - specialize (IH Hin).
    destruct p as [fn [on|] mt c|fn val]; cbn [Multer.single]; try apply IH.
    + destruct (truthy (JStr on)); [|apply IH].
      destruct req_file; [eauto|].
      destruct (String.eqb fn name); [|eauto].
      destruct (Multer.truncated _ _ _); [eauto|apply IH].
    + destruct (Multer.truncated _ _ _); [eauto|apply IH].
Qed.

(** C8, as amended.  In the two busboy revisions, parts other than a file
    part named [videoFile] (form fields, files under other field names) never
    change what the request does: how the route ends, the response, the disk
    and the calls are those of the body reduced to its [videoFile] parts.  In
    the two multer revisions the same holds for form fields under multer's
    field-size limit and for file parts without a filename, but a named file
    under any other field makes [upload.single] reject the request before the
    handler runs. *)
Theorem other_parts_by_revision
    (rev : revision) (w : world) (now rnd : Z) (parts : list part) (d : gset string) :
  (harmless_extras rev parts = true ->
   observable (route rev w now rnd parts (fresh d))
   = observable (route rev w now rnd (List.filter is_video_file parts) (fresh d)))
  /\ (buffered rev = true ->
      forall fieldname originalname mimeType content,
        In (FilePart fieldname (Some originalname) mimeType content) parts ->
        originalname <> "" ->
        fieldname <> "videoFile" ->
        exists err, route rev w now rnd parts (fresh d) = inl err).
Proof.
  split.
  - intros Hextras.
    assert (Hbusboy : forall rev', rev' = Streamed \/ rev' = StreamedEarlier ->
              observable (inr (run_upload rev' w parts None (fresh d)))
              = observable (inr (run_upload rev' w
                                   (List.filter is_video_file parts) None (fresh d)))).
    { intros rev' Hrev'.
      destruct (busboy_run rev' w parts None d Hrev') as (t1 & Ht1 & ->).
      destruct (busboy_run rev' w (List.filter is_video_file parts) None d Hrev')
        as (t2 & Ht2 & ->).
      rewrite filter_video_file_idem.
      destruct (existsb is_video_file parts); [|reflexivity].
      destruct (stream_error_at w BeforeFinish); cbn [observable res disk trace].
      - rewrite !List.filter_app, (quiet_console _ Ht1), (quiet_console _ Ht2).
        reflexivity.
      - rewrite (quiet_console _ Ht1), (quiet_console _ Ht2). reflexivity. }
    destruct rev; cbn [route harmless_extras buffered negb orb] in *.
    + exact (Hbusboy Streamed (or_introl eq_refl)).
    + exact (Hbusboy StreamedEarlier (or_intror eq_refl)).
    + unfold disk_route.
      rewrite (Multer_single_drops_extras _ _ disk_limits _ parts
                 eq_refl eq_refl Hextras).
      reflexivity.
    + unfold memory_route.
      rewrite (Multer_single_drops_extras _ _ memory_limits _ parts
                 eq_refl eq_refl Hextras).
      reflexivity.
  - intros Hrev fieldname originalname mimeType content Hin Hname Hfield.
    destruct rev; try discriminate Hrev; cbn [route].
    + unfold disk_route.
      destruct (Multer_single_unexpected "videoFile" (Multer.diskStorage now rnd)
                  disk_limits (truncates_at_limit w) parts _ _ _ _
                  Hin Hname Hfield None) as [err ->].
      eauto.
    + unfold memory_route.
      destruct (Multer_single_unexpected "videoFile" Multer.memoryStorage
                  memory_limits (truncates_at_limit w) parts _ _ _ _
                  Hin Hname Hfield None) as [err ->].
      eauto.
Qed.

Lemma other_parts_by_revision_witness :
  let w := sample_world (Resolved sample_init) (Resolved sample_up) None calm in
  harmless_extras OnDisk [FieldPart "title" "holiday"; clip] = true
  /\ observable (route OnDisk w 1700000000000 123456789
                   [FieldPart "title" "holiday"; clip] (fresh ∅))
     = observable (route OnDisk w 1700000000000 123456789 [clip] (fresh ∅))
  /\ buffered OnDisk = true
  /\ exists err,
       route OnDisk w 1700000000000 123456789 [thumbnail; clip] (fresh ∅) = inl err.
Proof.
  intros w.
  pose proof (other_parts_by_revision OnDisk w 1700000000000 123456789
                [FieldPart "title" "holiday"; clip] ∅) as [Hsame _].
  pose proof (other_parts_by_revision OnDisk w 1700000000000 123456789
                [thumbnail; clip] ∅) as [_ Hrefused].
  split; [reflexivity|]. split; [exact (Hsame eq_refl)|]. split; [reflexivity|].
  exact (Hrefused eq_refl "thumbnail" "clip.png" "image/png" [Byte.x89; Byte.x50]
           (or_introl eq_refl) ltac:(discriminate) ltac:(discriminate)).
Defined.

(** C8 as stated fails: in the disk-buffered revision a thumbnail sent next to
    the video makes multer reject the request, whereas the video alone is
    relayed and answered 200. *)
Lemma other_file_part_changes_outcome :
  ~ other_parts_ignored OnDisk
      (sample_world (Resolved sample_init) (Resolved sample_up) None calm)
      1700000000000 123456789 [thumbnail; clip] ∅.
Proof.
  unfold other_parts_ignored. intros H. vm_compute in H. discriminate H.
Qed.

(** ** The temporary file of the disk-buffered revision *)

(** The try/catch part of the handler decides the response without touching
    the disk or unlinking anything, and it always comes to an end: both
    provider calls carry a timeout. *)
Lemma DiskBuffered_decision w file d :
  disk (snd (try_catch (DiskBuffered.upload_try w file) DiskBuffered.upload_catch
               (fresh d))) = d
  /\ Forall (fun e => is_unlink e = false)
       (effects (try_catch (DiskBuffered.upload_try w file) DiskBuffered.upload_catch
                   (fresh d)))
  /\ fst (try_catch (DiskBuffered.upload_try w file) DiskBuffered.upload_catch
            (fresh d)) <> Suspended.
Proof.
  unfold effects, DiskBuffered.upload_try, DiskBuffered.upload_catch,
    DiskBuffered.response_text.
  explore.
  all: split; [reflexivity|split; [repeat constructor|discriminate]].
Qed.

(** The path multer's disk storage gives a stored file is never empty, so
    the [finally] block always attempts the unlink. *)
Lemma diskStorage_path_not_empty now rnd fieldname originalname mimeType content :
  path (Multer.diskStorage now rnd fieldname originalname mimeType content) <> "".
Proof.
  unfold Multer.diskStorage, DiskBuffered.destination. cbn [path].
  change ("/tmp/" +:+ ?x) with (String "/" ("tmp/" +:+ x)). discriminate.
Qed.

(** C1. Whenever the disk-buffered handler runs on a stored file, then on
    every exit path (success, refused envelope, failed negotiation, network
    failure or timeout, even a throwing catch block) the last thing it does is
    one unlink of the temporary file followed by a console line.  If the
    unlink succeeds the file is gone from the disk when the handler returns;
    if it fails, the failure is logged and nothing else changes: the response
    and the handler's outcome are those decided before the cleanup. *)
Theorem temporary_file_is_removed
    (w : world) (file : multer_file) (d : gset string) :
  path file <> "" ->
  path file ∈ d ->
  let decided :=
    try_catch (DiskBuffered.upload_try w file) DiskBuffered.upload_catch (fresh d) in
  let done := DiskBuffered.upload w (Some file) (fresh d) in
  responded done = responded decided
  /\ fst done = fst decided
  /\ Forall (fun e => is_unlink e = false) (effects decided)
  /\ match unlink_refused w (path file) with
     | None =>
         effects done
         = effects decided
             ++ [Unlink (path file);
                 Console LLog ("Temporary file deleted: " +:+ path file)]
         /\ path file ∉ disk (snd done)
     | Some _ =>
         effects done
         = effects decided
             ++ [Unlink (path file);
                 Console LError ("Error deleting temporary file " +:+ path file +:+ ":")]
     end.
Proof.
  intros Hpath Hstored decided done.
  destruct (DiskBuffered_decision w file d) as (Hdisk & Hquiet & Hends).
  fold decided in Hdisk, Hquiet, Hends.
  assert (Htruthy : truthy (JStr (path file)) = true).
  { cbn. destruct (String.eqb_spec (path file) ""); [contradiction|reflexivity]. }
  subst done. unfold DiskBuffered.upload, try_finally. fold decided.
  destruct decided as [o s1] eqn:Hdecided. cbn [snd fst] in Hdisk, Hends.
  unfold DiskBuffered.upload_finally. rewrite Htruthy.
  destruct o as [a|e|]; [| |contradiction].
  all: unfold try_catch, bind, unlink, console, responded, effects.
  all: destruct (unlink_refused w (path file)) as [refusal|]; cbn.
  all: rewrite ?Hdisk, ?(bool_decide_eq_true_2 _ Hstored); cbn.
  all: repeat split; try assumption.
  all: try (rewrite <- app_assoc; reflexivity).
  all: rewrite elem_of_difference; intros [_ Hnot].
  all: apply Hnot; apply elem_of_singleton_2; reflexivity.
Qed.

Lemma temporary_file_is_removed_witness :
  path clip_file <> ""
  /\ path clip_file ∈ ({[path clip_file]} : gset string)
  /\ path clip_file
       ∉ disk (snd (DiskBuffered.upload
                      (sample_world (Resolved sample_init)
                         (Rejected (timeout_error 600000)) None calm)
                      (Some clip_file) (fresh {[path clip_file]}))).
Proof.
  split; [discriminate|].
  split; [apply elem_of_singleton_2; reflexivity|].
  pose proof (temporary_file_is_removed
                (sample_world (Resolved sample_init)
                   (Rejected (timeout_error 600000)) None calm)
                clip_file {[path clip_file]}
                ltac:(discriminate)
                ltac:(apply elem_of_singleton_2; reflexivity)) as H.
  cbv zeta in H. destruct H as (_ & _ & _ & H).
  cbn [unlink_refused sample_world] in H. exact (proj2 H).
Defined.

(** * Further properties *)

(** ** Further properties of the proxy routes *)

Lemma to_int32_status s : 100 <= s <= 999 -> to_int32 s = s.
Proof.
  intros Hs. unfold to_int32.
  rewrite Z.mod_small by (change (2 ^ 31) with 2147483648;
                          change (2 ^ 32) with 4294967296; lia).
  lia.
Qed.

Lemma forwarded_status w s :
  100 <= s <= 999 ->
  status_code_of w (js_or (JNum s) (JNum 500)) = s
  /\ (s <? 100) || (999 <? s) = false.
Proof.
  intros Hs. unfold js_or. cbn [truthy].
  destruct (Z.eqb_spec s 0); [lia|]. cbn [negb status_code_of].
  split; [apply to_int32_status; exact Hs|].
  apply orb_false_iff. split; apply Z.ltb_ge; lia.
Qed.

(** X1. When the provider call of a GET proxy route is rejected (network
    error, timeout, HTTP error), the route answers 500 with its own fixed
    message, whatever the error says: the listing, thumbnail, download-ticket
    and download-link routes never pass the transport error's text on. *)
Theorem proxy_routes_hide_transport_errors
    (w : world) (linkId : string) (query : gmap string jsval) (ticket : jsval)
    (d : gset string) :
  (forall e, provider_get w (listfolder_url w) = Rejected e ->
     responded (Routes.get_videos w (fresh d))
     = Some (mk_response 500 (failure "Server error while fetching videos.")))
  /\ (forall e, provider_get w (thumbnail_url w linkId) = Rejected e ->
        responded (Proxies.get_thumbnail w linkId (fresh d))
        = Some (mk_response 500 (failure "Server error while fetching thumbnail.")))
  /\ (forall e, provider_get w (dlticket_url w linkId) = Rejected e ->
        responded (Proxies.download_ticket w linkId (fresh d))
        = Some (mk_response 500
                  (failure "Server error while fetching download ticket.")))
  /\ (forall e,
        query !! "ticket" = Some ticket -> truthy ticket = true ->
        provider_get w (dl_url linkId ticket) = Rejected e ->
        responded (Routes.download_link w linkId query (fresh d))
        = Some (mk_response 500 (failure "Server error while fetching download link."))).
Proof.
  unfold responded, listfolder_url, thumbnail_url, dlticket_url, dl_url.
  repeat split.
  - intros e He. unfold Routes.get_videos. drive. reflexivity.
  - intros e He. unfold Proxies.get_thumbnail. drive. reflexivity.
  - intros e He. unfold Proxies.download_ticket. drive. reflexivity.
  - intros e Hq Ht He. unfold Routes.download_link. rewrite Hq.
    change (default JUndefined (Some ticket)) with ticket.
    rewrite Ht. cbn [negb]. drive. reflexivity.
Qed.

Lemma proxy_routes_hide_transport_errors_witness :
  let w := sample_world (Rejected sample_network_error) (Resolved sample_up) None calm in
  provider_get w (listfolder_url w) = Rejected sample_network_error
  /\ sample_ticket_query !! "ticket" = Some (JStr "t0k3n")
  /\ responded (Routes.get_videos w (fresh ∅))
     = Some (mk_response 500 (failure "Server error while fetching videos."))
  /\ responded (Routes.download_link w "abc" sample_ticket_query (fresh ∅))
     = Some (mk_response 500 (failure "Server error while fetching download link.")).
Proof.
  intros w. split; [reflexivity|]. split; [reflexivity|].
  pose proof (proxy_routes_hide_transport_errors w "abc" sample_ticket_query
                (JStr "t0k3n") ∅) as (Hlist & _ & _ & Hlink).
  split.
  - apply (Hlist sample_network_error). reflexivity.
  - apply (Hlink sample_network_error); reflexivity.
Defined.

(** X2. When the provider's envelope carries a status other than 200 that is
    a writable HTTP status (100..999), each GET proxy route answers with that
    very status and a [success: false] envelope whose message is the
    provider's [msg], or the route's fallback text when [msg] is falsy. *)
Theorem proxy_routes_forward_provider_status
    (w : world) (linkId : string) (query : gmap string jsval) (ticket : jsval)
    (d : gset string) (data : jsval) (s : Z) :
  field "status" data = JNum s ->
  100 <= s <= 999 ->
  s <> 200 ->
  (provider_get w (listfolder_url w) = Resolved data ->
     responded (Routes.get_videos w (fresh d))
     = Some (mk_response s
               (JObj [("success", JBool false);
                      ("message", js_or (field "msg" data)
                                    (JStr "Failed to fetch videos."))])))
  /\ (provider_get w (thumbnail_url w linkId) = Resolved data ->
        responded (Proxies.get_thumbnail w linkId (fresh d))
        = Some (mk_response s
                  (JObj [("success", JBool false);
                         ("message", js_or (field "msg" data)
                                       (JStr "Failed to get thumbnail."))])))
  /\ (provider_get w (dlticket_url w linkId) = Resolved data ->
        responded (Proxies.download_ticket w linkId (fresh d))
        = Some (mk_response s
                  (JObj [("success", JBool false);
                         ("message", js_or (field "msg" data)
                                       (JStr "Failed to get download ticket."))])))
  /\ (query !! "ticket" = Some ticket -> truthy ticket = true ->
      provider_get w (dl_url linkId ticket) = Resolved data ->
        responded (Routes.download_link w linkId query (fresh d))
        = Some (mk_response s
                  (JObj [("success", JBool false);
                         ("message", js_or (field "msg" data)
                                       (JStr "Failed to get download link."))]))).
Proof.
  intros Hst Hs Hne.
  destruct (forwarded_status w s Hs) as [Hcode Hrange].
  destruct (field_not_undefined_obj "status" data) as [props ->];
    [rewrite Hst; discriminate|].
  cbn [field] in *.
  assert (Hneq : (s =? 200) = false) by (apply Z.eqb_neq; exact Hne).
  unfold responded, listfolder_url, thumbnail_url, dlticket_url, dl_url.
  repeat split.
  - intros Hget. unfold Routes.get_videos, Routes.listing_ok.
    drive. reflexivity.
  - intros Hget. unfold Proxies.get_thumbnail, Proxies.result_ok.
    drive. reflexivity.
  - intros Hget. unfold Proxies.download_ticket, Proxies.result_ok.
    drive. reflexivity.
  - intros Hq Ht Hget. unfold Routes.download_link, Routes.link_ok. rewrite Hq.
    change (default JUndefined (Some ticket)) with ticket.
    rewrite Ht. cbn [negb]. drive. reflexivity.
Qed.

Lemma proxy_routes_forward_provider_status_witness :
  let w := sample_world (Resolved sample_denied) (Resolved sample_up) None calm in
  field "status" sample_denied = JNum 403
  /\ 100 <= 403 <= 999
  /\ 403 <> 200
  /\ provider_get w (thumbnail_url w "abc") = Resolved sample_denied
  /\ responded (Proxies.get_thumbnail w "abc" (fresh ∅))
     = Some (mk_response 403
               (JObj [("success", JBool false);
                      ("message", js_or (field "msg" sample_denied)
                                    (JStr "Failed to get thumbnail."))])).
Proof.
  intros w. split; [reflexivity|]. split; [lia|]. split; [lia|].
  split; [reflexivity|].
  apply (proj1 (proj2 (proxy_routes_forward_provider_status w "abc"
                         sample_ticket_query (JStr "t0k3n") ∅ sample_denied 403
                         eq_refl ltac:(lia) ltac:(lia)))).
  reflexivity.
Defined.

(** X3. An envelope with status 200 but a falsy [result] is not a success for
    any GET proxy route, yet it is answered with HTTP status 200 (the
    envelope's own status, [data.status || 500]) and [success: false]. *)
Theorem success_status_without_result_is_answered_200
    (w : world) (linkId : string) (query : gmap string jsval) (ticket : jsval)
    (d : gset string) (data : jsval) :
  field "status" data = JNum 200 ->
  truthy (field "result" data) = false ->
  (provider_get w (listfolder_url w) = Resolved data ->
     responded (Routes.get_videos w (fresh d))
     = Some (mk_response 200
               (JObj [("success", JBool false);
                      ("message", js_or (field "msg" data)
                                    (JStr "Failed to fetch videos."))])))
  /\ (provider_get w (thumbnail_url w linkId) = Resolved data ->
        responded (Proxies.get_thumbnail w linkId (fresh d))
        = Some (mk_response 200
                  (JObj [("success", JBool false);
                         ("message", js_or (field "msg" data)
                                       (JStr "Failed to get thumbnail."))])))
  /\ (provider_get w (dlticket_url w linkId) = Resolved data ->
        responded (Proxies.download_ticket w linkId (fresh d))
        = Some (mk_response 200
                  (JObj [("success", JBool false);
                         ("message", js_or (field "msg" data)
                                       (JStr "Failed to get download ticket."))])))
  /\ (query !! "ticket" = Some ticket -> truthy ticket = true ->
      provider_get w (dl_url linkId ticket) = Resolved data ->
        responded (Routes.download_link w linkId query (fresh d))
        = Some (mk_response 200
                  (JObj [("success", JBool false);
                         ("message", js_or (field "msg" data)
                                       (JStr "Failed to get download link."))]))).
Proof.
  intros Hst Hres.
  destruct (field_not_undefined_obj "status" data) as [props ->];
    [rewrite Hst; discriminate|].
  cbn [field] in *.
  unfold responded, listfolder_url, thumbnail_url, dlticket_url, dl_url.
  repeat split.
  - intros Hget. unfold Routes.get_videos, Routes.listing_ok.
    drive. reflexivity.
  - intros Hget. unfold Proxies.get_thumbnail, Proxies.result_ok.
    drive. reflexivity.
  - intros Hget. unfold Proxies.download_ticket, Proxies.result_ok.
    drive. reflexivity.
  - intros Hq Ht Hget. unfold Routes.download_link, Routes.link_ok. rewrite Hq.
    change (default JUndefined (Some ticket)) with ticket.
    rewrite Ht. cbn [negb]. drive. reflexivity.
Qed.

Lemma success_status_without_result_is_answered_200_witness :
  let w := sample_world (Resolved sample_empty) (Resolved sample_up) None calm in
  field "status" sample_empty = JNum 200
  /\ truthy (field "result" sample_empty) = false
  /\ provider_get w (dlticket_url w "abc") = Resolved sample_empty
  /\ responded (Proxies.download_ticket w "abc" (fresh ∅))
     = Some (mk_response 200
               (JObj [("success", JBool false);
                      ("message", js_or (field "msg" sample_empty)
                                    (JStr "Failed to get download ticket."))])).
Proof.
  intros w. split; [reflexivity|]. split; [reflexivity|]. split; [reflexivity|].
  apply (proj1 (proj2 (proj2 (success_status_without_result_is_answered_200 w "abc"
                                sample_ticket_query (JStr "t0k3n") ∅ sample_empty
                                eq_refl eq_refl)))).
  reflexivity.
Defined.

(** The filter callback has no effect and always comes to an end. *)
Lemma keep_file_pure file s :
  exists o, Routes.keep_file file s = (o, s) /\ o <> Suspended.
Proof.
  unfold Routes.keep_file. unfold_monad.
  destruct (nullish file); cbn; [eexists; split; [reflexivity|discriminate]|].
  destruct (truthy (field "linkid" file)); cbn;
    eexists; (split; [reflexivity|discriminate]).
Qed.

Lemma filter_items_pure files : forall s,
  exists o, Routes.filter_items Routes.keep_file files s = (o, s) /\ o <> Suspended.
Proof.
  induction files as [|file files IH]; intros s;
    [eexists; split; [reflexivity|discriminate]|].
  cbn [Routes.filter_items]. cbv [bind ret].
  destruct (keep_file_pure file s) as (keep & -> & Hkeep).
  destruct keep as [keep|e|];
    [|eexists; split; [reflexivity|discriminate]|contradiction].
  destruct (IH s) as (o & -> & Ho).
  destruct o; [| |contradiction]; eexists; (split; [reflexivity|discriminate]).
Qed.

Ltac explore_listing :=
  unfold_monad; cbn;
  repeat (first
            [ match goal with
              | |- context [Routes.filter_items Routes.keep_file ?l ?s] =>
                  let o := fresh "o" in
                  let Ho := fresh "Ho" in
                  let Hends := fresh "Hends" in
                  destruct (filter_items_pure l s) as (o & Ho & Hends);
                  rewrite Ho; clear Ho
              end
            | split_stuck ];
          cbn).

(** X4. Each GET proxy route makes exactly one provider call, without a
    timeout, and leaves the disk alone.  If the provider answers or the call
    fails, the route returns and sends exactly one response, whatever the
    answer holds; if the provider stays silent, the handler stays suspended
    and the client gets no response. *)
Theorem proxy_routes_answer_once_unless_provider_is_silent
    (w : world) (linkId : string) (query : gmap string jsval) (ticket : jsval)
    (d : gset string) :
  let answered (url : string) (x : outcome unit * state) :=
    (if is_silent (provider_get w url)
     then fst x = Suspended /\ sends (effects x) = 0%nat
     else fst x = Ret tt /\ sends (effects x) = 1%nat)
    /\ provider_calls (effects x) = [Get url [] None]
    /\ disk (snd x) = d in
  answered (listfolder_url w) (Routes.get_videos w (fresh d))
  /\ answered (thumbnail_url w linkId) (Proxies.get_thumbnail w linkId (fresh d))
  /\ answered (dlticket_url w linkId) (Proxies.download_ticket w linkId (fresh d))
  /\ (query !! "ticket" = Some ticket ->
      truthy ticket = true ->
      answered (dl_url linkId ticket)
        (Routes.download_link w linkId query (fresh d))).
Proof.
  cbv zeta.
  unfold sends, provider_calls, effects, listfolder_url, thumbnail_url,
    dlticket_url, dl_url.
  split; [|split; [|split]].
  - unfold Routes.get_videos, Routes.listing_ok, Routes.array_filter.
    explore_listing. all: try congruence.
    all: try match goal with H : is_silent _ = _ |- _ => discriminate H end.
    all: repeat split.
  - unfold Proxies.get_thumbnail, Proxies.result_ok.
    explore. all: try match goal with H : is_silent _ = _ |- _ => discriminate H end.
    all: repeat split.
  - unfold Proxies.download_ticket, Proxies.result_ok.
    explore. all: try match goal with H : is_silent _ = _ |- _ => discriminate H end.
    all: repeat split.
  - intros Hq Ht. unfold Routes.download_link, Routes.link_ok. rewrite Hq.
    change (default JUndefined (Some ticket)) with ticket.
    rewrite Ht. cbn [negb].
    explore. all: try match goal with H : is_silent _ = _ |- _ => discriminate H end.
    all: repeat split.
Qed.

Lemma proxy_routes_answer_once_unless_provider_is_silent_witness :
  let w := sample_world Silent (Resolved sample_up) None calm in
  sample_ticket_query !! "ticket" = Some (JStr "t0k3n")
  /\ truthy (JStr "t0k3n") = true
  /\ is_silent (provider_get w (dl_url "abc" (JStr "t0k3n"))) = true
  /\ fst (Routes.download_link w "abc" sample_ticket_query (fresh ∅)) = Suspended
  /\ sends (effects (Routes.download_link w "abc" sample_ticket_query (fresh ∅)))
     = 0%nat.
Proof.
  intros w. split; [reflexivity|]. split; [reflexivity|]. split; [reflexivity|].
  pose proof (proxy_routes_answer_once_unless_provider_is_silent w "abc"
                sample_ticket_query (JStr "t0k3n") ∅) as (_ & _ & _ & Hlink).
  destruct (Hlink eq_refl eq_refl) as (Hsilent & _).
  change (is_silent (provider_get w (dl_url "abc" (JStr "t0k3n")))) with true
    in Hsilent.
  exact Hsilent.
Defined.

(** X5. A [ticket] parameter that is present but falsy (the empty string of
    [?ticket=]) is refused like a missing one: 400, and no provider call. *)
Theorem download_link_with_falsy_ticket_is_refused
    (w : world) (linkId : string) (query : gmap string jsval) (ticket : jsval)
    (d : gset string) :
  query !! "ticket" = Some ticket ->
  truthy ticket = false ->
  responded (Routes.download_link w linkId query (fresh d))
  = Some (mk_response 400 (failure "Download ticket is required."))
  /\ provider_calls (effects (Routes.download_link w linkId query (fresh d))) = [].
Proof.
  intros Hq Ht. unfold Routes.download_link. rewrite Hq.
  change (default JUndefined (Some ticket)) with ticket. rewrite Ht.
  cbn. split; reflexivity.
Qed.

Lemma download_link_with_falsy_ticket_is_refused_witness :
  let w := sample_world (Resolved sample_link) (Resolved sample_up) None calm in
  sample_blank_query !! "ticket" = Some (JStr "")
  /\ truthy (JStr "") = false
  /\ responded (Routes.download_link w "abc" sample_blank_query (fresh ∅))
     = Some (mk_response 400 (failure "Download ticket is required.")).
Proof.
  intros w. split; [reflexivity|]. split; [reflexivity|].
  apply (download_link_with_falsy_ticket_is_refused w "abc" sample_blank_query
           (JStr "") ∅); reflexivity.
Defined.

(** X6. With a truthy ticket the download-link route asks the provider
    exactly once, for [file/dl?file=<linkId>&ticket=<ticket>] without
    credentials, whatever the answer; on an envelope of status 200 with a
    truthy [result.url] it answers 200 with [downloadUrl = result.url] and
    [filename = result.name]. *)
Theorem download_link_asks_once_and_returns_link
    (w : world) (linkId : string) (query : gmap string jsval) (ticket : jsval)
    (d : gset string) :
  query !! "ticket" = Some ticket ->
  truthy ticket = true ->
  provider_calls (effects (Routes.download_link w linkId query (fresh d)))
  = [Get (dl_url linkId ticket) [] None]
  /\ (forall data,
        provider_get w (dl_url linkId ticket) = Resolved data ->
        field "status" data = JNum 200 ->
        truthy (field "url" (field "result" data)) = true ->
        responded (Routes.download_link w linkId query (fresh d))
        = Some (mk_response 200
                  (JObj [("success", JBool true);
                         ("downloadUrl", field "url" (field "result" data));
                         ("filename", field "name" (field "result" data))]))).
Proof.
  intros Hq Ht. unfold dl_url, provider_calls, effects, responded.
  unfold Routes.download_link, Routes.link_ok. rewrite Hq.
  change (default JUndefined (Some ticket)) with ticket. rewrite Ht. cbn [negb].
  split.
  - explore; reflexivity.
  - intros data Hget Hst Hurl.
    destruct (field_not_undefined_obj "status" data) as [props ->];
      [rewrite Hst; discriminate|].
    destruct (field_not_undefined_obj "url" (field "result" (JObj props)))
      as [rprops Hres]; [intros Hu; rewrite Hu in Hurl; discriminate|].
    cbn [field] in *. rewrite Hres in *. cbn [field] in *.
    drive. reflexivity.
Qed.

Lemma download_link_asks_once_and_returns_link_witness :
  let w := sample_world (Resolved sample_link) (Resolved sample_up) None calm in
  sample_ticket_query !! "ticket" = Some (JStr "t0k3n")
  /\ truthy (JStr "t0k3n") = true
  /\ provider_calls (effects (Routes.download_link w "abc" sample_ticket_query (fresh ∅)))
     = [Get (dl_url "abc" (JStr "t0k3n")) [] None].
Proof.
  intros w. split; [reflexivity|]. split; [reflexivity|].
  apply (download_link_asks_once_and_returns_link w "abc" sample_ticket_query
           (JStr "t0k3n") ∅); reflexivity.
Defined.

(** ** POST /api/remote-upload *)

(** X7. A remote-upload request whose body has no truthy [url] is answered
    400 "Remote URL is required." and the provider is not called. *)
Theorem remote_upload_without_url_is_refused
    (w : world) (req_body : jsval) (d : gset string) :
  nullish req_body = false ->
  truthy (field "url" req_body) = false ->
  responded (RemoteUpload.remote_upload w req_body (fresh d))
  = Some (mk_response 400 (failure "Remote URL is required."))
  /\ provider_calls (effects (RemoteUpload.remote_upload w req_body (fresh d))) = [].
Proof.
  intros Hbody Hurl. unfold RemoteUpload.remote_upload, RemoteUpload.destructure.
  rewrite Hbody. unfold_monad. cbn. rewrite Hurl. cbn. split; reflexivity.
Qed.

Lemma remote_upload_without_url_is_refused_witness :
  let w := sample_world (Resolved sample_init) (Resolved sample_up) None calm in
  let body := JObj [("name", JStr "holiday")] in
  nullish body = false
  /\ truthy (field "url" body) = false
  /\ responded (RemoteUpload.remote_upload w body (fresh ∅))
     = Some (mk_response 400 (failure "Remote URL is required.")).
Proof.
  intros w body. split; [reflexivity|]. split; [reflexivity|].
  apply (remote_upload_without_url_is_refused w body ∅); reflexivity.
Defined.

(** X8. With a truthy [url] the remote-upload route calls [remotedl/add]
    exactly once, whatever the answer, with the parameters login, key, url and
    folder, followed by [name] exactly when the body's [name] is truthy; and
    it sends exactly one response, whatever the provider answers.  Only when
    the provider stays silent is there no response: the call carries no
    timeout. *)
Theorem remote_upload_asks_once_with_optional_name
    (w : world) (req_body : jsval) (d : gset string) :
  nullish req_body = false ->
  truthy (field "url" req_body) = true ->
  provider_calls (effects (RemoteUpload.remote_upload w req_body (fresh d)))
  = [Get remotedl_url
       ([("login", STREAMTAPE_LOGIN w); ("key", STREAMTAPE_KEY w);
         ("url", Some (to_string (field "url" req_body)));
         ("folder", STREAMTAPE_FOLDER_ID w)]
        ++ (if truthy (field "name" req_body)
            then [("name", Some (to_string (field "name" req_body)))]
            else []))
       None]
  /\ sends (effects (RemoteUpload.remote_upload w req_body (fresh d)))
     = (if is_silent (provider_get w remotedl_url) then 0%nat else 1%nat).
Proof.
  intros Hbody Hurl.
  assert (Hu : nullish (field "url" req_body) = false)
    by (destruct (field "url" req_body); try discriminate Hurl; reflexivity).
  unfold remotedl_url, provider_calls, sends, effects.
  unfold RemoteUpload.remote_upload, RemoteUpload.destructure, RemoteUpload.param,
    Proxies.result_ok.
  rewrite Hbody. unfold_monad. cbn. rewrite Hurl. cbn. rewrite ?Hu.
  destruct (truthy (field "name" req_body)) eqn:Hname.
  - assert (Hn : nullish (field "name" req_body) = false)
      by (destruct (field "name" req_body); try discriminate Hname; reflexivity).
    rewrite Hn.
    repeat (split_stuck; cbn);
      try match goal with H : is_silent _ = _ |- _ => discriminate H end;
      split; reflexivity.
  - repeat (split_stuck; cbn);
      try match goal with H : is_silent _ = _ |- _ => discriminate H end;
      split; reflexivity.
Qed.

Lemma remote_upload_asks_once_with_optional_name_witness :
  let w := sample_world (Resolved sample_init) (Resolved sample_up) None calm in
  nullish sample_remote_body = false
  /\ truthy (field "url" sample_remote_body) = true
  /\ sends (effects (RemoteUpload.remote_upload w sample_remote_body (fresh ∅))) = 1%nat.
Proof.
  intros w. split; [reflexivity|]. split; [reflexivity|].
  apply (remote_upload_asks_once_with_optional_name w sample_remote_body ∅);
    reflexivity.
Defined.

(** X9. Unlike the GET proxy routes, the remote-upload route passes the
    transport error's message on: a rejected provider call is answered 500
    with "Server error initiating remote upload: " followed by
    [error.message]. *)
Theorem remote_upload_reports_transport_error
    (w : world) (req_body : jsval) (d : gset string) (e : js_error) :
  nullish req_body = false ->
  truthy (field "url" req_body) = true ->
  provider_get w remotedl_url = Rejected e ->
  responded (RemoteUpload.remote_upload w req_body (fresh d))
  = Some (mk_response 500
            (failure ("Server error initiating remote upload: " +:+ err_message e))).
Proof.
  intros Hbody Hurl Hget.
  unfold remotedl_url, responded in *.
  unfold RemoteUpload.remote_upload, RemoteUpload.destructure.
  rewrite Hbody. drive. reflexivity.
Qed.

Lemma remote_upload_reports_transport_error_witness :
  let w := sample_world (Rejected sample_network_error) (Resolved sample_up) None calm in
  nullish sample_remote_body = false
  /\ truthy (field "url" sample_remote_body) = true
  /\ provider_get w remotedl_url = Rejected sample_network_error
  /\ responded (RemoteUpload.remote_upload w sample_remote_body (fresh ∅))
     = Some (mk_response 500
               (failure ("Server error initiating remote upload: "
                           +:+ err_message sample_network_error))).
Proof.
  intros w. split; [reflexivity|]. split; [reflexivity|]. split; [reflexivity|].
  apply (remote_upload_reports_transport_error w sample_remote_body ∅
           sample_network_error); reflexivity.
Defined.

(** ** CORS *)

(** X10. The CORS origin function allows a request exactly when it has no
    (or an empty) Origin header, or its Origin is the one configured origin:
    [FRONTEND_URL] in production, "http://localhost:5173" otherwise.  In
    production without [FRONTEND_URL] every request with an Origin is
    refused. *)
Theorem cors_allows_exactly_the_configured_origin
    (NODE_ENV FRONTEND_URL request_origin : option string) :
  snd (Cors.origin (Cors.allowedOrigins NODE_ENV FRONTEND_URL) request_origin) = true
  <-> (request_origin = None
       \/ request_origin = Some ""
       \/ (NODE_ENV = Some "production" /\ FRONTEND_URL = request_origin)
       \/ (NODE_ENV <> Some "production"
           /\ request_origin = Some "http://localhost:5173")).
Proof.
  unfold Cors.origin, Cors.allowedOrigins.
  destruct request_origin as [o|]; cbn [opt_str truthy negb];
    [|cbn; split; auto].
  destruct (String.eqb_spec o "") as [->|Hne]; cbn [negb]; [cbn; split; auto|].
  assert (Hcases :
    forall allowed : string,
      snd (if Cors.indexOf (JStr o) [JStr allowed] 0 =? -1
           then (Some (new_Error (JStr "The CORS policy for this site does not allow access from the specified Origin.")), false)
           else (None, true)) = true <-> allowed = o).
  { intros allowed. cbn [Cors.indexOf strict_eq].
    destruct (String.eqb_spec allowed o); cbn; split; congruence. }
  destruct NODE_ENV as [env|]; cbn [opt_str strict_eq].
  - destruct (String.eqb_spec env "production") as [->|Henv].
    + destruct FRONTEND_URL as [f|]; cbn [opt_str].
      * rewrite Hcases. split.
        -- intros ->. right. right. left. split; reflexivity.
        -- intros [H|[H|[[_ H]|[H _]]]]; congruence.
      * cbn. split; [discriminate|].
        intros [H|[H|[[_ H]|[H _]]]]; congruence.
    + rewrite Hcases. split.
      * intros <-. right. right. right. split; congruence.
      * intros [H|[H|[[H _]|[_ H]]]]; congruence.
  - rewrite Hcases. split.
    + intros <-. right. right. right. split; congruence.
    + intros [H|[H|[[H _]|[_ H]]]]; congruence.
Qed.

(** ** The name of the temporary file *)

Lemma append_assoc_s (a b c : string) : (a +:+ b) +:+ c = a +:+ (b +:+ c).
Proof.
  induction a as [|x a IH]; [reflexivity|].
  change ((String x a +:+ b) +:+ c) with (String x ((a +:+ b) +:+ c)).
  change (String x a +:+ (b +:+ c)) with (String x (a +:+ (b +:+ c))).
  rewrite IH. reflexivity.
Qed.

Lemma append_nil_r_s (a : string) : a +:+ "" = a.
Proof.
  induction a as [|x a IH]; [reflexivity|].
  change (String x a +:+ "") with (String x (a +:+ "")). rewrite IH. reflexivity.
Qed.

Lemma has_dot_cons c s :
  has_dot (String c s) = Ascii.eqb "." c || has_dot s.
Proof.
  unfold has_dot. cbn [contains is_prefix]. rewrite andb_true_r. reflexivity.
Qed.

Lemma has_dot_append a b : has_dot (a +:+ b) = has_dot a || has_dot b.
Proof.
  induction a as [|x a IH]; [reflexivity|].
  change (String x a +:+ b) with (String x (a +:+ b)).
  rewrite !has_dot_cons, IH, orb_assoc. reflexivity.
Qed.

Lemma last_segment_dot acc rest :
  DiskBuffered.last_segment acc (String "." rest) = DiskBuffered.last_segment "" rest.
Proof. reflexivity. Qed.

Lemma last_segment_other acc c rest :
  Ascii.eqb "." c = false ->
  DiskBuffered.last_segment acc (String c rest)
  = DiskBuffered.last_segment (acc +:+ String c "") rest.
Proof.
  intros Hc.
  destruct c as [[] [] [] [] [] [] [] []]; try reflexivity; discriminate Hc.
Qed.

Lemma last_segment_without_dot s : forall acc,
  has_dot s = false -> DiskBuffered.last_segment acc s = acc +:+ s.
Proof.
  induction s as [|c s IH]; intros acc Hs.
  - cbn. symmetry. apply append_nil_r_s.
  - rewrite has_dot_cons in Hs. apply orb_false_iff in Hs as [Hc Hs].
    rewrite (last_segment_other _ _ _ Hc), (IH _ Hs), append_assoc_s. reflexivity.
Qed.

Lemma last_segment_after_dot pre ext : forall acc,
  DiskBuffered.last_segment acc (pre +:+ String "." ext)
  = DiskBuffered.last_segment "" ext.
Proof.
  induction pre as [|c pre IH]; intros acc.
  - reflexivity.
  - change (String c pre +:+ String "." ext) with (String c (pre +:+ String "." ext)).
    destruct (Ascii.eqb "." c) eqn:Hc.
    + apply Ascii.eqb_eq in Hc. subst c. rewrite last_segment_dot. apply IH.
    + rewrite (last_segment_other _ _ _ Hc). apply IH.
Qed.

Lemma last_segment_no_dot s : forall acc,
  has_dot acc = false -> has_dot (DiskBuffered.last_segment acc s) = false.
Proof.
  induction s as [|c s IH]; intros acc Hacc; [exact Hacc|].
  destruct (Ascii.eqb "." c) eqn:Hc.
  - apply Ascii.eqb_eq in Hc. subst c. rewrite last_segment_dot. apply IH. reflexivity.
  - rewrite (last_segment_other _ _ _ Hc). apply IH.
    rewrite has_dot_append, Hacc, has_dot_cons, Hc. reflexivity.
Qed.

Lemma last_segment_suffix s : forall acc,
  exists pre, acc +:+ s = pre +:+ DiskBuffered.last_segment acc s.
Proof.
  induction s as [|c s IH]; intros acc.
  - exists "". cbn. apply append_nil_r_s.
  - destruct (Ascii.eqb "." c) eqn:Hc.
    + apply Ascii.eqb_eq in Hc. subst c. rewrite last_segment_dot.
      destruct (IH "") as [pre Hpre]. cbn in Hpre.
      exists (acc +:+ String "." pre).
      rewrite append_assoc_s.
      change (String "." pre +:+ DiskBuffered.last_segment "" s)
        with (String "." (pre +:+ DiskBuffered.last_segment "" s)).
      rewrite <- Hpre. reflexivity.
    + rewrite (last_segment_other _ _ _ Hc).
      destruct (IH (acc +:+ String c "")) as [pre Hpre].
      exists pre. rewrite <- Hpre, append_assoc_s. reflexivity.
Qed.

(** X11. The extension multer's [filename] callback takes from the client
    filename, [originalname.split(".").pop()], never contains a dot and is a
    suffix of the client filename. *)
Theorem extension_is_dotless_suffix (originalname : string) :
  has_dot (DiskBuffered.last_segment "" originalname) = false
  /\ exists pre, originalname = pre +:+ DiskBuffered.last_segment "" originalname.
Proof.
  split; [apply last_segment_no_dot; reflexivity|].
  destruct (last_segment_suffix originalname "") as [pre Hpre]. eauto.
Qed.

(** X12. The stored filename is the field name, the clock, the random number
    and the text after the last dot of the client filename; a client filename
    without any dot is taken whole as the extension. *)
Theorem stored_filename_by_extension
    (fieldname pre ext : string) (now rnd : Z) :
  has_dot ext = false ->
  DiskBuffered.filename fieldname (pre +:+ String "." ext) now rnd
  = fieldname +:+ "-" +:+ pretty now +:+ "-" +:+ pretty rnd +:+ "." +:+ ext
  /\ DiskBuffered.filename fieldname ext now rnd
     = fieldname +:+ "-" +:+ pretty now +:+ "-" +:+ pretty rnd +:+ "." +:+ ext.
Proof.
  intros Hext. unfold DiskBuffered.filename.
  rewrite last_segment_after_dot, !(last_segment_without_dot _ _ Hext).
  change ("" +:+ ext) with ext. rewrite !append_assoc_s.
  split; reflexivity.
Qed.

Lemma stored_filename_by_extension_witness :
  has_dot "mp4" = false
  /\ DiskBuffered.filename "videoFile" ("my.clip" +:+ String "." "mp4")
       1700000000000 123456789
     = "videoFile" +:+ "-" +:+ pretty 1700000000000 +:+ "-" +:+ pretty 123456789
         +:+ "." +:+ "mp4".
Proof.
  split; [reflexivity|].
  apply (stored_filename_by_extension "videoFile" "my.clip" "mp4"
           1700000000000 123456789).
  reflexivity.
Defined.

(** ** Further properties of the upload handlers *)

Arguments sends : simpl never.
Arguments provider_calls : simpl never.

Ltac list_calls Ht :=
  rewrite ?calls_app, ?(calls_console _ Ht);
  unfold provider_calls; cbn [List.filter is_provider_call app].

(** X21. In the busboy revisions (src/index.js and its earlier revision) a
    request whose body has a [videoFile] part never reaches the provider and
    gets no answer from the finish listener: the part's stream is stored
    unread, so busboy never emits ['finish'].  The only answer there can be
    is the 500 "File stream error during upload." of the stream's error
    listener; without such an error the client gets no response at all. *)
Theorem upload_with_video_file_is_never_relayed
    (rev : revision) (w : world) (parts : list part)
    (req_file : option multer_file) (d : gset string) :
  buffered rev = false ->
  existsb is_video_file parts = true ->
  fst (run_upload rev w parts req_file (fresh d)) = Ret tt
  /\ provider_calls (effects (run_upload rev w parts req_file (fresh d))) = []
  /\ disk (snd (run_upload rev w parts req_file (fresh d))) = d
  /\ responded (run_upload rev w parts req_file (fresh d))
     = (if stream_error_at w BeforeFinish then Some stream_error_answer else None).
Proof.
  intros Hrev Hfile.
  assert (Hbusboy : rev = Streamed \/ rev = StreamedEarlier)
    by (destruct rev; try discriminate Hrev; auto).
  destruct (busboy_run rev w parts req_file d Hbusboy) as (t & Ht & ->).
  rewrite Hfile. unfold effects, responded.
  destruct (stream_error_at w BeforeFinish); cbn [fst snd trace res disk].
  - repeat split. list_calls Ht. reflexivity.
  - repeat split. list_calls Ht. reflexivity.
Qed.

Lemma upload_with_video_file_is_never_relayed_witness :
  let w := sample_world (Resolved sample_init) (Resolved sample_up) None calm in
  buffered Streamed = false
  /\ existsb is_video_file [clip] = true
  /\ provider_calls (effects (run_upload Streamed w [clip] None (fresh ∅))) = []
  /\ responded (run_upload Streamed w [clip] None (fresh ∅)) = None.
Proof.
  intros w. split; [reflexivity|]. split; [reflexivity|].
  destruct (upload_with_video_file_is_never_relayed Streamed w [clip] None ∅
              eq_refl eq_refl) as (_ & Hcalls & _ & Hres).
  split; [exact Hcalls|exact Hres].
Defined.

(** X22. No revision of POST /api/upload ever sends a second response. *)
Theorem upload_is_answered_at_most_once
    (rev : revision) (w : world) (parts : list part)
    (req_file : option multer_file) (d : gset string) :
  (sends (effects (run_upload rev w parts req_file (fresh d))) <= 1)%nat.
Proof.
  unfold effects.
  destruct rev.
  - enter_busboy Streamed w parts req_file d.
    all: cbn [snd trace]; rewrite ?sends_app, ?(sends_console _ Ht).
    all: cbv [sends]; cbn; lia.
  - enter_busboy StreamedEarlier w parts req_file d.
    all: cbn [snd trace]; rewrite ?sends_app, ?(sends_console _ Ht).
    all: cbv [sends]; cbn; lia.
  - cbn [run_upload]. destruct req_file as [file|]; enter_DiskBuffered.
    all: explore.
    all: cbv [sends]; cbn; lia.
  - cbn [run_upload]. destruct req_file as [file|]; enter_InMemory.
    all: explore.
    all: cbv [sends]; cbn; lia.
Qed.

(** X13. The disk-buffered revision always comes to an end and sends exactly
    one response, whatever the provider does and even when it stays silent
    (both calls carry a timeout), provided the HTTP status of a rejected
    provider call is one Node can write (100..999): the catch block answers
    with that status. *)
Theorem disk_upload_is_answered_exactly_once
    (w : world) (req_file : option multer_file) (d : gset string) :
  (forall e, (provider_get w ul_url = Rejected e
              \/ exists url, provider_post w url = Rejected e) ->
             writable_status e = true) ->
  fst (DiskBuffered.upload w req_file (fresh d)) = Ret tt
  /\ sends (effects (DiskBuffered.upload w req_file (fresh d))) = 1%nat.
Proof.
  intros Hvalid. unfold effects, ul_url in *.
  cut (match DiskBuffered.upload w req_file (fresh d) with
       | (o, s) => o = Ret tt /\ sends (trace s) = 1%nat
       end).
  { destruct (DiskBuffered.upload w req_file (fresh d)); trivial. }
  unfold writable_status in Hvalid.
  assert (Hg : forall e, provider_get w (API_BASE_URL +:+ "/file/ul") = Rejected e ->
                 match err_response e with
                 | Some (st, _) => (100 <=? st) && (st <=? 999)
                 | None => true
                 end = true) by (intros e He; apply Hvalid; left; exact He).
  assert (Hp : forall url e, provider_post w url = Rejected e ->
                 match err_response e with
                 | Some (st, _) => (100 <=? st) && (st <=? 999)
                 | None => true
                 end = true) by (intros url e He; apply Hvalid; right; eauto).
  clear Hvalid.
  destruct req_file as [file|]; enter_DiskBuffered.
  all: explore.
  all: try (split; reflexivity).
  all: exfalso.
  all: first [ pose proof (Hg _ eq_refl) as Hw
             | match goal with
               | Hr : provider_post _ _ = Rejected _ |- _ =>
                   pose proof (Hp _ _ Hr) as Hw
               end ].
  all: match goal with
       | Hs : err_response _ = Some _ |- _ => rewrite Hs in Hw
       end.
  all: apply andb_true_iff in Hw as [Hlo Hhi].
  all: match goal with
       | Hb : (_ <? 100) || (999 <? _) = true |- _ =>
           apply orb_true_iff in Hb as [Hb|Hb]
       end.
  all: lia.
Qed.

Lemma disk_upload_is_answered_exactly_once_witness :
  let w := sample_world (Rejected sample_http_error) Silent None calm in
  (forall e, (provider_get w ul_url = Rejected e
              \/ exists url, provider_post w url = Rejected e) ->
             writable_status e = true)
  /\ sends (effects (DiskBuffered.upload w (Some clip_file) (fresh {[path clip_file]})))
     = 1%nat.
Proof.
  intros w.
  assert (forall e, (provider_get w ul_url = Rejected e
                     \/ exists url, provider_post w url = Rejected e) ->
                    writable_status e = true) as Hw.
  { intros e [He | [url He]].
    - injection He as <-. reflexivity.
    - discriminate He. }
  split; [exact Hw|].
  apply (disk_upload_is_answered_exactly_once w (Some clip_file)
           {[path clip_file]} Hw).
Defined.

(** X14. The provider calls of an upload request are none, or the single
    negotiation call, or the negotiation call followed by one transfer to the
    negotiated destination (only after an accepted negotiation): no retry, no
    other call, each with the revision's own timeout. *)
Theorem upload_calls_provider_in_order
    (rev : revision) (w : world) (parts : list part)
    (req_file : option multer_file) (d : gset string) :
  let calls := provider_calls (effects (run_upload rev w parts req_file (fresh d))) in
  calls = []
  \/ calls = [Get ul_url (credentials w) (negotiation_timeout rev)]
  \/ exists init form,
       provider_get w ul_url = Resolved init
       /\ envelope_refused "url" init = false
       /\ calls = [Get ul_url (credentials w) (negotiation_timeout rev);
                   Post (field "url" (field "result" init)) form (relay_timeout rev)].
Proof.
  cbv zeta.
  cut (forall P : list event -> Prop,
         P [] ->
         P [Get ul_url (credentials w) (negotiation_timeout rev)] ->
         (forall init form,
            provider_get w ul_url = Resolved init ->
            envelope_refused "url" init = false ->
            P [Get ul_url (credentials w) (negotiation_timeout rev);
               Post (field "url" (field "result" init)) form (relay_timeout rev)]) ->
         P (provider_calls (effects (run_upload rev w parts req_file (fresh d))))).
  { intros H. apply H; eauto 10. }
  intros P Pnone Pget Pboth.
  unfold effects, ul_url, credentials, envelope_refused in *.
  destruct rev; cbn [negotiation_timeout relay_timeout] in *.
  - enter_busboy Streamed w parts req_file d.
    all: cbn [snd trace]; list_calls Ht.
    all: exact Pnone.
  - enter_busboy StreamedEarlier w parts req_file d.
    all: cbn [snd trace]; list_calls Ht.
    all: exact Pnone.
  - cbn [run_upload]. destruct req_file as [file|]; enter_DiskBuffered.
    all: explore.
    all: first [ exact Pnone | exact Pget | eapply Pboth; [reflexivity|eassumption] ].
  - cbn [run_upload]. destruct req_file as [file|]; enter_InMemory.
    all: explore.
    all: first [ exact Pnone | exact Pget | eapply Pboth; [reflexivity|eassumption] ].
Qed.

(** X15. A provider that stays silent, at the negotiation or at the transfer:
    the disk-buffered revision, which passes a timeout to both calls, comes
    to an end and answers 504 "Upload to Streamtape timed out."; the
    in-memory revision, which passes none, stays suspended and never
    answers. *)
Theorem silent_provider_by_revision
    (w : world) (file : multer_file) (d : gset string) :
  (provider_get w ul_url = Silent
   \/ exists init,
        provider_get w ul_url = Resolved init
        /\ envelope_refused "url" init = false
        /\ provider_post w (field "url" (field "result" init)) = Silent) ->
  (fst (DiskBuffered.upload w (Some file) (fresh d)) = Ret tt
   /\ responded (DiskBuffered.upload w (Some file) (fresh d))
      = Some (mk_response 504 (failure "Upload to Streamtape timed out.")))
  /\ (fst (InMemory.upload w (Some file) (fresh d)) = Suspended
      /\ responded (InMemory.upload w (Some file) (fresh d)) = None).
Proof.
  intros Hwhere. unfold responded, ul_url in *.
  destruct Hwhere as [Hget | (init & Hget & Hinit & Hpost)].
  - split.
    + enter_DiskBuffered. drive.
      repeat (split_stuck; cbn); split; reflexivity.
    + enter_InMemory. drive. split; reflexivity.
  - destruct (accepted_envelope _ _ Hinit) as (Hi1 & Hi2 & Hi3 & Hi4).
    split.
    + enter_DiskBuffered. drive.
      repeat (split_stuck; cbn); split; reflexivity.
    + enter_InMemory. drive. split; reflexivity.
Qed.

Lemma silent_provider_by_revision_witness :
  let w := sample_world (Resolved sample_init) Silent None calm in
  (exists init,
      provider_get w ul_url = Resolved init
      /\ envelope_refused "url" init = false
      /\ provider_post w (field "url" (field "result" init)) = Silent)
  /\ responded (DiskBuffered.upload w (Some clip_file) (fresh {[path clip_file]}))
     = Some (mk_response 504 (failure "Upload to Streamtape timed out."))
  /\ fst (InMemory.upload w (Some clip_file) (fresh ∅)) = Suspended.
Proof.
  intros w.
  assert (Hsilent : exists init,
             provider_get w ul_url = Resolved init
             /\ envelope_refused "url" init = false
             /\ provider_post w (field "url" (field "result" init)) = Silent).
  { exists sample_init. repeat split. }
  split; [exact Hsilent|].
  split.
  - exact (proj2 (proj1 (silent_provider_by_revision w clip_file
                           {[path clip_file]} (or_intror Hsilent)))).
  - exact (proj1 (proj2 (silent_provider_by_revision w clip_file ∅
                           (or_intror Hsilent)))).
Defined.

(** X16. In the disk-buffered revision, a provider call (negotiation or
    transfer) rejected with an HTTP response that is no timeout is answered
    with the provider's HTTP status and "Streamtape API error: <status> - "
    followed by the response body's [msg], or [error.message] when that is
    falsy. *)
Theorem disk_revision_forwards_http_status
    (w : world) (file : multer_file) (d : gset string)
    (e : js_error) (s : Z) (data : jsval) :
  timed_out e = false ->
  err_response e = Some (s, data) ->
  100 <= s <= 999 ->
  (provider_get w ul_url = Rejected e
   \/ exists init,
        provider_get w ul_url = Resolved init
        /\ envelope_refused "url" init = false
        /\ provider_post w (field "url" (field "result" init)) = Rejected e) ->
  responded (DiskBuffered.upload w (Some file) (fresh d))
  = Some (mk_response s
            (failure ("Streamtape API error: " +:+ pretty s +:+ " - "
                        +:+ to_string (js_or (opt_field "msg" data)
                                             (JStr (err_message e)))))).
Proof.
  intros Htime Hresp Hs Hwhere.
  assert (Hnz : (s =? 0) = false) by (apply Z.eqb_neq; lia).
  assert (Hrange : (s <? 100) || (999 <? s) = false).
  { apply orb_false_iff. split; apply Z.ltb_ge; lia. }
  unfold timed_out, responded, ul_url in *.
  destruct Hwhere as [Hget | (init & Hget & Hinit & Hpost)].
  - enter_DiskBuffered. drive.
    repeat (split_stuck; cbn); reflexivity.
  - destruct (accepted_envelope _ _ Hinit) as (Hi1 & Hi2 & Hi3 & Hi4).
    enter_DiskBuffered. drive.
    repeat (split_stuck; cbn); reflexivity.
Qed.

Lemma disk_revision_forwards_http_status_witness :
  let w := sample_world (Rejected sample_http_error) (Resolved sample_up) None calm in
  let data := JObj [("status", JNum 403); ("msg", JStr "Forbidden key")] in
  timed_out sample_http_error = false
  /\ err_response sample_http_error = Some (403, data)
  /\ 100 <= 403 <= 999
  /\ provider_get w ul_url = Rejected sample_http_error
  /\ responded (DiskBuffered.upload w (Some clip_file) (fresh ∅))
     = Some (mk_response 403
               (failure ("Streamtape API error: " +:+ pretty 403 +:+ " - "
                           +:+ to_string (js_or (opt_field "msg" data)
                                            (JStr (err_message sample_http_error)))))).
Proof.
  intros w data. split; [reflexivity|]. split; [reflexivity|]. split; [lia|].
  split; [reflexivity|].
  apply (disk_revision_forwards_http_status w clip_file ∅ sample_http_error 403 data
           eq_refl eq_refl ltac:(lia)).
  left. reflexivity.
Defined.

(** X17. The in-memory revision answers 500 to every rejected provider call
    (negotiation or transfer), whatever the error, a network failure or an
    HTTP error status alike: never 504 and never the provider's status.  The
    message is "Failed to upload video: " followed by the response body's
    [msg] when that is a non-empty string, and by [error.message] when the
    error has no response. *)
Theorem memory_revision_answers_500_to_every_rejection
    (w : world) (file : multer_file) (d : gset string) (e : js_error) :
  (provider_get w ul_url = Rejected e
   \/ exists init,
        provider_get w ul_url = Resolved init
        /\ envelope_refused "url" init = false
        /\ provider_post w (field "url" (field "result" init)) = Rejected e) ->
  (exists message,
      responded (InMemory.upload w (Some file) (fresh d))
      = Some (mk_response 500 (failure ("Failed to upload video: " +:+ message))))
  /\ (forall s data m,
        err_response e = Some (s, data) -> field "msg" data = JStr m -> m <> "" ->
        responded (InMemory.upload w (Some file) (fresh d))
        = Some (mk_response 500 (failure ("Failed to upload video: " +:+ m))))
  /\ (err_response e = None ->
      responded (InMemory.upload w (Some file) (fresh d))
      = Some (mk_response 500
                (failure ("Failed to upload video: " +:+ err_message e)))).
Proof.
  intros Hwhere.
  assert (Hanswer :
    responded (InMemory.upload w (Some file) (fresh d))
    = Some (mk_response 500
              (failure ("Failed to upload video: " +:+ InMemory.error_text e)))).
  { unfold responded, ul_url in *.
    destruct Hwhere as [Hget | (init & Hget & Hinit & Hpost)].
    - unfold InMemory.upload, InMemory.upload_try, InMemory.upload_catch.
      drive. reflexivity.
    - destruct (accepted_envelope _ _ Hinit) as (Hi1 & Hi2 & Hi3 & Hi4).
      unfold InMemory.upload, InMemory.upload_try, InMemory.upload_catch.
      drive. reflexivity. }
  rewrite Hanswer. split; [eexists; reflexivity|]. split.
  - intros s data m Hresp Hmsg Hm.
    unfold InMemory.error_text. rewrite Hresp.
    pose proof (envelope_with_message _ _ Hmsg) as Hobj.
    unfold opt_field. rewrite Hobj, Hmsg. unfold js_or. cbn [truthy].
    destruct (String.eqb_spec m ""); [contradiction|]. reflexivity.
  - intros Hresp. unfold InMemory.error_text. rewrite Hresp. reflexivity.
Qed.

Lemma memory_revision_answers_500_to_every_rejection_witness :
  let w := sample_world (Rejected sample_http_error) (Resolved sample_up) None calm in
  provider_get w ul_url = Rejected sample_http_error
  /\ err_response sample_http_error
     = Some (403, JObj [("status", JNum 403); ("msg", JStr "Forbidden key")])
  /\ responded (InMemory.upload w (Some clip_file) (fresh ∅))
     = Some (mk_response 500 (failure ("Failed to upload video: " +:+ "Forbidden key"))).
Proof.
  intros w. split; [reflexivity|]. split; [reflexivity|].
  apply (proj1 (proj2 (memory_revision_answers_500_to_every_rejection w clip_file ∅
                         sample_http_error (or_introl eq_refl)))
           403 (JObj [("status", JNum 403); ("msg", JStr "Forbidden key")])
           "Forbidden key"); [reflexivity | reflexivity | discriminate].
Defined.



(** X19. In the multer revisions, after an accepted negotiation the transfer
    carries the stored file's bytes under its original name, with the file's
    own content type, or application/octet-stream if that is empty. *)
Theorem multer_revisions_relay_the_stored_file
    (rev : revision) (w : world) (parts : list part) (file : multer_file)
    (d : gset string) (init : jsval) :
  rev = OnDisk \/ rev = InMemoryBuffer ->
  provider_get w ul_url = Resolved init ->
  envelope_refused "url" init = false ->
  provider_calls (effects (run_upload rev w parts (Some file) (fresh d)))
  = [Get ul_url (credentials w) (negotiation_timeout rev);
     Post (field "url" (field "result" init))
       (mk_form (originalname file)
          (if String.eqb (mimetype file) "" then "application/octet-stream"
           else mimetype file)
          (buffer file))
       (relay_timeout rev)].
Proof.
  intros Hrev Hget Hinit.
  destruct (accepted_envelope _ _ Hinit) as (Hi1 & Hi2 & Hi3 & Hi4).
  assert (Htype :
    to_string (js_or (JStr (mimetype file)) (JStr "application/octet-stream"))
    = if String.eqb (mimetype file) "" then "application/octet-stream"
      else mimetype file).
  { unfold js_or. cbn [truthy]. destruct (String.eqb (mimetype file) ""); reflexivity. }
  unfold effects, ul_url, credentials in *.
  destruct Hrev as [-> | ->]; cbn [run_upload negotiation_timeout relay_timeout].
  - enter_DiskBuffered. rewrite Htype. drive.
    repeat (split_stuck; cbn). all: reflexivity.
  - enter_InMemory. rewrite Htype. drive.
    repeat (split_stuck; cbn). all: reflexivity.
Qed.

Lemma multer_revisions_relay_the_stored_file_witness :
  let w := sample_world (Resolved sample_init) (Resolved sample_up) None calm in
  provider_get w ul_url = Resolved sample_init
  /\ envelope_refused "url" sample_init = false
  /\ provider_calls (effects (run_upload InMemoryBuffer w [] (Some clip_file) (fresh ∅)))
     = [Get ul_url (credentials w) (negotiation_timeout InMemoryBuffer);
        Post (field "url" (field "result" sample_init))
          (mk_form (originalname clip_file)
             (if String.eqb (mimetype clip_file) "" then "application/octet-stream"
              else mimetype clip_file)
             (buffer clip_file))
          (relay_timeout InMemoryBuffer)].
Proof.
  intros w. split; [reflexivity|]. split; [reflexivity|].
  apply (multer_revisions_relay_the_stored_file InMemoryBuffer w [] clip_file ∅
           sample_init (or_intror eq_refl) eq_refl eq_refl).
Defined.

(** X20. No upload revision changes any file but its own temporary one: the
    disk after a request is the disk before it, in the disk-buffered revision
    possibly without the request's own [req.file.path]. *)
Theorem upload_touches_only_its_own_file
    (rev : revision) (w : world) (parts : list part)
    (req_file : option multer_file) (d : gset string) :
  match rev, req_file with
  | OnDisk, Some file =>
      disk (snd (run_upload rev w parts req_file (fresh d))) = d
      \/ disk (snd (run_upload rev w parts req_file (fresh d)))
         = d ∖ {[path file]}
  | _, _ => disk (snd (run_upload rev w parts req_file (fresh d))) = d
  end.
Proof.
  destruct rev.
  - assert (disk (snd (run_upload Streamed w parts req_file (fresh d))) = d).
    { enter_busboy Streamed w parts req_file d; reflexivity. }
    destruct req_file; assumption.
  - assert (disk (snd (run_upload StreamedEarlier w parts req_file (fresh d))) = d).
    { enter_busboy StreamedEarlier w parts req_file d; reflexivity. }
    destruct req_file; assumption.
  - cbn [run_upload]. destruct req_file as [file|]; [|reflexivity].
    destruct (DiskBuffered_decision w file d) as (Hdisk & _ & _).
    unfold DiskBuffered.upload, try_finally.
    destruct (try_catch (DiskBuffered.upload_try w file) DiskBuffered.upload_catch
                (fresh d)) as [o s1].
    cbn [snd] in Hdisk.
    unfold DiskBuffered.upload_finally, unlink.
    unfold_monad. cbn.
    repeat (split_stuck; cbn); rewrite ?Hdisk; auto.
  - cbn [run_upload]. destruct req_file as [file|]; enter_InMemory.
    all: explore. all: reflexivity.
Qed.

(** X23. The disk-buffered route as a whole, multer included: for a named
    [videoFile] part under the size limit, multer stores the file under
    /tmp/, the handler runs, and when the unlink is not refused the disk
    after the request holds no temporary file and is otherwise what it was
    before, whatever the provider did. *)
Theorem disk_route_leaves_no_temporary_file
    (w : world) (now rnd : Z) (name mime : string) (bytes : list Byte.byte)
    (d : gset string) :
  name <> "" ->
  Z.of_nat (length bytes) < 1024 * 1024 * 5000 ->
  unlink_refused w (path (Multer.diskStorage now rnd "videoFile" name mime bytes))
  = None ->
  exists done,
    route OnDisk w now rnd [FilePart "videoFile" (Some name) mime bytes] (fresh d)
    = inr done
    /\ (path (Multer.diskStorage now rnd "videoFile" name mime bytes)
          ∉ disk (snd done))
    /\ (forall p,
          p <> path (Multer.diskStorage now rnd "videoFile" name mime bytes) ->
          (p ∈ disk (snd done)) <-> (p ∈ d)).
Proof.
  intros Hname Hsize Hunlink.
  set (file := Multer.diskStorage now rnd "videoFile" name mime bytes) in *.
  cbn [route]. unfold disk_route.
  rewrite Multer_single_one_file; [|exact Hname|exact Hsize].
  set (d' := {[path file]} ∪ d).
  exists (DiskBuffered.upload w (Some file) (fresh d')).
  split; [reflexivity|].
  destruct (DiskBuffered_decision w file d') as (Hdisk & _ & Hends).
  assert (Htruthy : truthy (JStr (path file)) = true).
  { cbn [truthy]. apply negb_true_iff.
    destruct (String.eqb_spec (path file) "") as [Hp|]; [|reflexivity].
    exfalso. exact (diskStorage_path_not_empty _ _ _ _ _ _ Hp). }
  assert (Hstored : path file ∈ d').
  { apply elem_of_union_l, elem_of_singleton_2. reflexivity. }
  unfold DiskBuffered.upload, try_finally.
  destruct (try_catch (DiskBuffered.upload_try w file) DiskBuffered.upload_catch
              (fresh d')) as [o s1].
  cbn [snd fst] in Hdisk, Hends.
  unfold DiskBuffered.upload_finally. rewrite Htruthy.
  assert (Hframe : forall p, p <> path file -> (p ∈ d' ∖ {[path file]}) <-> (p ∈ d)).
  { intros p Hp. rewrite elem_of_difference, elem_of_singleton.
    unfold d'. rewrite elem_of_union, elem_of_singleton. tauto. }
  assert (Hgone : path file ∉ d' ∖ {[path file]}).
  { rewrite elem_of_difference, elem_of_singleton. tauto. }
  destruct o as [a|e|]; [| |contradiction].
  all: unfold try_catch, bind, unlink, console.
  all: rewrite Hunlink; cbn.
  all: rewrite Hdisk, (bool_decide_eq_true_2 _ Hstored); cbn.
  all: split; [exact Hgone|exact Hframe].
Qed.

Lemma disk_route_leaves_no_temporary_file_witness :
  let w := sample_world (Resolved sample_denied) (Resolved sample_up) None calm in
  "clip.mp4" <> ""
  /\ Z.of_nat (length [Byte.x00; Byte.x01]) < 1024 * 1024 * 5000
  /\ unlink_refused w
       (path (Multer.diskStorage 1700000000000 123456789 "videoFile" "clip.mp4"
                "video/mp4" [Byte.x00; Byte.x01]))
     = None
  /\ exists done,
       route OnDisk w 1700000000000 123456789
         [FilePart "videoFile" (Some "clip.mp4") "video/mp4" [Byte.x00; Byte.x01]]
         (fresh ∅)
       = inr done
       /\ path (Multer.diskStorage 1700000000000 123456789 "videoFile" "clip.mp4"
                  "video/mp4" [Byte.x00; Byte.x01]) ∉ disk (snd done).
Proof.
  intros w. split; [discriminate|]. split; [cbn; lia|]. split; [reflexivity|].
  destruct (disk_route_leaves_no_temporary_file w 1700000000000 123456789
              "clip.mp4" "video/mp4" [Byte.x00; Byte.x01] ∅
              ltac:(discriminate) ltac:(cbn; lia) eq_refl)
    as (done & Hroute & Hgone & _).
  exists done. split; [exact Hroute|exact Hgone].
Defined.
